(** * GPRPy: the GSSI DZT reader [gprpy.toolbox.gprIO_DZT.readdzt]

    A shallow embedding of [readdzt] and of the parts of [struct] and
    [numpy] it calls, followed by the properties of the decoder.

    Conventions of the model.
    - A file is the list of its bytes; opening an existing file never fails.
    - The host that runs the decoder is a parameter ([machine]): its byte
      order, which [struct.unpack('h', ..)], [struct.unpack('f', ..)] and the
      numpy dtypes use, the size of the largest array its allocator grants and
      the largest position its file system lets a stream seek to.
    - A Python [int] is a [Z].  A Python [float] is a [spec_float]; the value
      read by the format ['f'] is a binary32 datum, which converts to a Python
      float without rounding, and the quotient [int / int] is the binary64
      datum nearest to the exact quotient.
    - A Python exception is a value of [exn]; a computation that may raise is
      a [result].
    - The file under decode is on the host: every position inside the file
      can be reached, and an array that the file fills from the read position
      is granted.  Beyond that, the limits of the host decide. *)

From Stdlib Require Import ZArith String List Bool Lia.
From Stdlib Require Import Floats.SpecFloat.
From coqutil Require Import Byte Word.LittleEndianList.
Import ListNotations.
Local Open Scope string_scope.
Local Open Scope Z_scope.
Local Open Scope list_scope.

(** ** Python: exceptions, values, dictionaries *)

Inductive exn : Type :=
| StructError                        (* struct.error: unpack requires a buffer of n bytes *)
| KeyError (key : string)
| TypeError
| UnboundLocalError (name : string)
| NameError (name : string)
| OverflowError
| OSError
| ValueError
| MemoryError.

Inductive result (A : Type) : Type :=
| Ok (a : A)
| Raise (e : exn).
Arguments Ok {A} a.
Arguments Raise {A} e.

Definition bind {A B} (c : result A) (k : A -> result B) : result B :=
  match c with
  | Ok a => k a
  | Raise e => Raise e
  end.

Notation "x <- c ;; k" := (bind c (fun x => k))
  (at level 61, c at next level, right associativity).

(** [try: body / except: handler], with a bare [except]. *)
Definition try_except {A} (body : result A) (handler : result A) : result A :=
  match body with
  | Ok a => Ok a
  | Raise _ => handler
  end.

Inductive pyval : Type :=
| PyInt (z : Z)
| PyFloat (f : spec_float).

(** A [dict] in insertion order. *)
Definition dict := list (string * pyval).

Fixpoint setitem (d : dict) (key : string) (v : pyval) : dict :=
  match d with
  | [] => [(key, v)]
  | (k, w) :: d' => if String.eqb k key then (k, v) :: d' else (k, w) :: setitem d' key v
  end.

Fixpoint getitem (d : dict) (key : string) : result pyval :=
  match d with
  | [] => Raise (KeyError key)
  | (k, w) :: d' => if String.eqb k key then Ok w else getitem d' key
  end.

Definition keys (d : dict) : list string := map fst d.

(** [d[key]] used as an integer operand.  Every key the decoder computes with
    is bound by the format ['h'], so the float branch is never taken (lemma
    [getint_header]). *)
Definition getint (d : dict) (key : string) : result Z :=
  v <- getitem d key ;;
  match v with
  | PyInt z => Ok z
  | PyFloat _ => Raise TypeError
  end.

(** ** Fixed-width integers and floats *)

Inductive byteorder : Type := LittleEndian | BigEndian.

(** The host: its byte order, the size in bytes of the largest array its
    allocator grants, and the largest position its file system lets a stream
    seek to. *)
Record machine : Type := mk_machine {
  order : byteorder;
  memory : Z;
  max_offset : Z
}.

(** Two hosts for the examples: 16 GiB of memory and files of up to 16 TiB,
    little-endian and big-endian. *)
Definition little_endian_host : machine :=
  {| order := LittleEndian; memory := 2 ^ 34; max_offset := 2 ^ 44 |}.
Definition big_endian_host : machine :=
  {| order := BigEndian; memory := 2 ^ 34; max_offset := 2 ^ 44 |}.

(** The bytes of a native-order datum, least significant first. *)
Definition native (host : machine) (bs : list byte) : list byte :=
  match order host with
  | LittleEndian => bs
  | BigEndian => rev bs
  end.

(** Two's complement reading of a [bits]-wide unsigned value. *)
Definition signed (bits : Z) (u : Z) : Z :=
  if u <? 2 ^ (bits - 1) then u else u - 2 ^ bits.

(** Wrap-around of int32 arithmetic. *)
Definition wrap_int32 (z : Z) : Z := signed 32 (z mod 2 ^ 32).

(** The binary32 datum with bit pattern [w] (sign, 8 exponent bits, 23
    fraction bits). *)
Definition binary32_of_bits (w : Z) : spec_float :=
  let s := Z.testbit w 31 in
  let e := Z.land (Z.shiftr w 23) 255 in
  let m := Z.land w (Z.ones 23) in
  if e =? 0 then
    match m with
    | Zpos p => S754_finite s p (-149)
    | _ => S754_zero s
    end
  else if e =? 255 then
    if m =? 0 then S754_infinity s else S754_nan
  else
    match m + 2 ^ 23 with
    | Zpos p => S754_finite s p (e - 150)
    | _ => S754_nan
    end.

(** Python [a / 2**k] on ints: the binary64 nearest to the quotient, or
    OverflowError. *)
Definition truediv_pow2 (a : Z) (k : Z) : result spec_float :=
  match binary_normalize 53 1024 a (- k) false with
  | S754_infinity _ => Raise OverflowError
  | f => Ok f
  end.

(** Python [int(f)]: truncation towards zero. *)
Definition int_of_float (f : spec_float) : result Z :=
  match f with
  | S754_zero _ => Ok 0
  | S754_finite s m e =>
      let a := if 0 <=? e then Zpos m * 2 ^ e else Zpos m / 2 ^ (- e) in
      Ok (if s then - a else a)
  | S754_infinity _ => Raise OverflowError
  | S754_nan => Raise ValueError
  end.

(** ** The module [struct] *)

Module Struct.

(** [struct.unpack('h', buffer)[0]] *)
Definition unpack_h (host : machine) (buffer : list byte) : result Z :=
  if (length buffer =? 2)%nat
  then Ok (signed 16 (le_combine (native host buffer)))
  else Raise StructError.

(** [struct.unpack('f', buffer)[0]] *)
Definition unpack_f (host : machine) (buffer : list byte) : result spec_float :=
  if (length buffer =? 4)%nat
  then Ok (binary32_of_bits (le_combine (native host buffer)))
  else Raise StructError.

End Struct.

(** ** The open file [fid] *)

(** The state of the handle is the unread rest of the stream. *)
Definition io (A : Type) : Type := list byte -> result (A * list byte).

Definition io_bind {A B} (c : io A) (k : A -> io B) : io B :=
  fun s =>
    match c s with
    | Ok (a, s') => k a s'
    | Raise e => Raise e
    end.

Definition io_ret {A} (a : A) : io A := fun s => Ok (a, s).

Notation "x <~ c ;; k" := (io_bind c (fun x => k))
  (at level 61, c at next level, right associativity).

(** [fid.read(n)]: up to [n] bytes, fewer at the end of the file. *)
Definition fid_read (n : nat) : io (list byte) :=
  fun s => Ok (firstn n s, skipn n s).

Definition lift {A} (c : result A) : io A :=
  fun s =>
    match c with
    | Ok a => Ok (a, s)
    | Raise e => Raise e
    end.

(** [with open(filename, 'rb') as fid: body] *)
Definition with_open {A} (file : list byte) (body : io A) : result A :=
  match body file with
  | Ok (a, _) => Ok a
  | Raise e => Raise e
  end.

(** [info[key] = struct.unpack('h', fid.read(2))[0]] *)
Definition store_h (host : machine) (info : dict) (key : string) : io dict :=
  buffer <~ fid_read 2 ;;
  v <~ lift (Struct.unpack_h host buffer) ;;
  io_ret (setitem info key (PyInt v)).

(** [info[key] = struct.unpack('f', fid.read(4))[0]] *)
Definition store_f (host : machine) (info : dict) (key : string) : io dict :=
  buffer <~ fid_read 4 ;;
  v <~ lift (Struct.unpack_f host buffer) ;;
  io_ret (setitem info key (PyFloat v)).

(** The body of the [with] block of [readdzt]. *)
Definition read_header (host : machine) : io dict :=
  let info := [] in
  info <~ store_h host info "rh_tag" ;;        (* Pos 00 *)
  info <~ store_h host info "rh_data" ;;       (* Pos 02 *)
  info <~ store_h host info "rh_nsamp" ;;      (* Pos 04 *)
  info <~ store_h host info "rh_bits" ;;       (* Pos 06 *)
  info <~ store_h host info "rh_zero" ;;       (* Pos 08 *)
  info <~ store_f host info "rhf_sps" ;;       (* Pos 10 *)
  info <~ store_f host info "rhf_spm" ;;       (* Pos 14 *)
  info <~ store_f host info "rhf_mpm" ;;       (* Pos 18 *)
  info <~ store_f host info "rhf_position" ;;  (* Pos 22 *)
  info <~ store_f host info "rhf_range" ;;     (* Pos 26 *)
  info <~ store_h host info "rh_npass" ;;      (* Pos 30 *)
  info <~ store_f host info "rhb_cdt" ;;       (* Pos 32 *)
  info <~ store_f host info "rhb_mdt" ;;       (* Pos 36 *)
  info <~ store_h host info "rh_mapOffset" ;;  (* Pos 40 *)
  info <~ store_h host info "rh_mapSize" ;;    (* Pos 42 *)
  info <~ store_h host info "rh_text" ;;       (* Pos 44 *)
  info <~ store_h host info "rh_ntext" ;;      (* Pos 46 *)
  info <~ store_h host info "rh_proc" ;;       (* Pos 48 *)
  info <~ store_h host info "rh_nproc" ;;      (* Pos 50 *)
  info <~ store_h host info "rh_nchan" ;;      (* Pos 52 *)
  io_ret info.

(** ** The module [numpy] *)

(** The first [cnt] consecutive blocks of [n] elements of [l]. *)
Fixpoint group {A} (n : nat) (l : list A) (cnt : nat) : list (list A) :=
  match cnt with
  | O => []
  | S c => firstn n l :: group n (skipn n l) c
  end.

Definition len {A} (l : list A) : Z := Z.of_nat (length l).

Module np.

Inductive dtype : Type := uint8 | uint16 | int32.

Definition itemsize (dt : dtype) : Z :=
  match dt with
  | uint8 => 1
  | uint16 => 2
  | int32 => 4
  end.

(** The value of one item of type [dt] stored in [bs]. *)
Definition item (host : machine) (dt : dtype) (bs : list byte) : Z :=
  match dt with
  | uint8 => le_combine bs
  | uint16 => le_combine (native host bs)
  | int32 => signed 32 (le_combine (native host bs))
  end.

(** A two-dimensional array: its shape and its rows. *)
Record ndarray : Type := mk_ndarray { shape : Z * Z; tolist : list (list Z) }.

(** [np.fromfile(file, dtype=dt, offset=offset, count=count)] on a binary
    file.  [count] and [offset] are converted to 64-bit C integers.  The
    stream is positioned with [fseek], which fails before the first byte and
    beyond what the file system allows.  A negative [count] stands for the
    whole items between that position and the end of the file.  The array of
    that many items is created before the read: numpy refuses a size of 2^63
    bytes or more, and the host must grant the array.  [fread] then returns
    the whole items it found and the array is cut to their number. *)
Definition fromfile (host : machine) (file : list byte) (dt : dtype)
           (offset count : Z) : result (list Z) :=
  if negb ((- 2 ^ 63 <=? offset) && (offset <? 2 ^ 63)
           && (- 2 ^ 63 <=? count) && (count <? 2 ^ 63))
  then Raise OverflowError
  else if offset <? 0 then Raise OSError
  else if (len file <? offset) && (max_offset host <? offset) then Raise OSError
  else
    let elsize := itemsize dt in
    let num := if count <? 0 then Z.quot (len file - offset) elsize else count in
    if num <? 0 then Raise ValueError          (* negative dimensions are not allowed *)
    else if 2 ^ 63 <=? num * elsize then Raise ValueError       (* array is too big *)
    else
      let rest := skipn (Z.to_nat offset) file in
      if (len rest / elsize <? num) && (memory host <? num * elsize)
      then Raise MemoryError
      else
        let nread := Z.min num (len rest / elsize) in
        Ok (map (item host dt) (group (Z.to_nat elsize) rest (Z.to_nat nread))).

(** [a.reshape(-1, k)] on a one-dimensional array. *)
Definition reshape (a : list Z) (k : Z) : result ndarray :=
  if k <? 0 then Raise ValueError            (* can only specify one unknown dimension *)
  else if (k =? 0) || negb (len a mod k =? 0)
  then Raise ValueError                      (* cannot reshape array of size N into shape (k) *)
  else
    let n := len a / k in
    Ok {| shape := (n, k); tolist := group (Z.to_nat k) a (Z.to_nat n) |}.

(** [m.T] *)
Definition T (m : ndarray) : ndarray :=
  let '(n, k) := shape m in
  {| shape := (k, n);
     tolist := map (fun r => map (fun row => nth r row 0) (tolist m))
                   (seq 0 (Z.to_nat k)) |}.

(** [m[:, j]] *)
Definition column (m : ndarray) (j : nat) : list Z :=
  map (fun row => nth j row 0) (tolist m).

(** [m[i, j]] *)
Definition get (m : ndarray) (i j : nat) : Z :=
  nth j (nth i (tolist m) []) 0.

End np.

(** ** [readdzt] *)

Definition minheadsize : Z := 1024.

(** [warnings.warn(..)]: the module [warnings] is not imported by
    gprIO_DZT.py, so evaluating the name raises. *)
Definition warnings_warn : result unit := Raise (NameError "warnings").

(** The [if / elif / elif] that binds [datatype]; [None] is the unbound
    name. *)
Definition select_datatype (info : dict) : result (option np.dtype) :=
  rh_bits <- getint info "rh_bits" ;;
  if rh_bits =? 8 then Ok (Some np.uint8)
  else
    rh_bits <- getint info "rh_bits" ;;
    if rh_bits =? 16 then Ok (Some np.uint16)
    else
      rh_bits <- getint info "rh_bits" ;;
      if rh_bits =? 32 then Ok (Some np.int32)
      else Ok None.

Definition head_offset (info : dict) : result Z :=
  rh_data <- getint info "rh_data" ;;
  if rh_data <? minheadsize then
    rh_data <- getint info "rh_data" ;;
    Ok (minheadsize * rh_data)
  else
    rh_nchan <- getint info "rh_nchan" ;;
    Ok (minheadsize * rh_nchan).

Definition start_offset (info : dict) (start_scan : Z) : result Z :=
  try_except
    (rh_nchan <- getint info "rh_nchan" ;;
     rh_nsamp <- getint info "rh_nsamp" ;;
     rh_bits <- getint info "rh_bits" ;;
     q <- truediv_pow2 (start_scan * rh_nchan * rh_nsamp * rh_bits) 3 ;;
     int_of_float q)
    (_ <- warnings_warn ;; Ok 0).

Definition count (info : dict) (n_scans : Z) : result Z :=
  if n_scans >? 0 then
    try_except
      (rh_nsamp <- getint info "rh_nsamp" ;;
       rh_nchan <- getint info "rh_nchan" ;;
       Ok (n_scans * rh_nsamp * rh_nchan))
      (_ <- warnings_warn ;; Ok (-1))
  else Ok (-1).

(** [datvec.astype(np.int32) - 2**info["rh_bits"] // 2] where the samples are
    unsigned. *)
Definition recentre (info : dict) (datvec : list Z) : result (list Z) :=
  rh_bits <- getint info "rh_bits" ;;
  unsigned <- (if rh_bits =? 8 then Ok true
               else rh_bits <- getint info "rh_bits" ;; Ok (rh_bits =? 16)) ;;
  if unsigned : bool then
    rh_bits <- getint info "rh_bits" ;;
    Ok (map (fun v => wrap_int32 (wrap_int32 v - 2 ^ rh_bits / 2)) datvec)
  else Ok datvec.

(** The flat vector of samples before reshaping: everything up to and
    including the recentring. *)
Definition read_samples (host : machine) (file : list byte) (info : dict)
           (start_scan n_scans : Z) : result (list Z) :=
  datatype <- select_datatype info ;;
  head_offset <- head_offset info ;;
  start_offset <- start_offset info start_scan ;;
  count <- count info n_scans ;;
  dt <- match datatype with
        | Some dt => Ok dt
        | None => Raise (UnboundLocalError "datatype")
        end ;;
  datvec <- np.fromfile host file dt (head_offset + start_offset) count ;;
  recentre info datvec.

(** [datvec.reshape(-1, info["rh_nsamp"]*info["rh_nchan"]).T] *)
Definition build_matrix (info : dict) (datvec : list Z) : result np.ndarray :=
  rh_nsamp <- getint info "rh_nsamp" ;;
  rh_nchan <- getint info "rh_nchan" ;;
  m <- np.reshape datvec (rh_nsamp * rh_nchan) ;;
  Ok (np.T m).

Definition readdzt (host : machine) (file : list byte)
           (start_scan n_scans : Z) : result (np.ndarray * dict) :=
  info <- with_open file (read_header host) ;;
  datvec <- read_samples host file info start_scan n_scans ;;
  data <- build_matrix info datvec ;;
  Ok (data, info).

(** ** The documented layout of the header *)

(** [slice file off n] is [file[off : off + n]]. *)
Definition slice (file : list byte) (off n : nat) : list byte :=
  firstn n (skipn off file).

(** The signed 16-bit integer stored at byte offset [off]. *)
Definition int16_at (host : machine) (file : list byte) (off : nat) : Z :=
  signed 16 (le_combine (native host (slice file off 2))).

(** The binary32 float stored at byte offset [off]. *)
Definition float_at (host : machine) (file : list byte) (off : nat) : spec_float :=
  binary32_of_bits (le_combine (native host (slice file off 4))).

(** The header mapping described by the layout table: field name, byte
    offset, type. *)
Definition header_of (host : machine) (file : list byte) : dict :=
  [ ("rh_tag", PyInt (int16_at host file 0));
    ("rh_data", PyInt (int16_at host file 2));
    ("rh_nsamp", PyInt (int16_at host file 4));
    ("rh_bits", PyInt (int16_at host file 6));
    ("rh_zero", PyInt (int16_at host file 8));
    ("rhf_sps", PyFloat (float_at host file 10));
    ("rhf_spm", PyFloat (float_at host file 14));
    ("rhf_mpm", PyFloat (float_at host file 18));
    ("rhf_position", PyFloat (float_at host file 22));
    ("rhf_range", PyFloat (float_at host file 26));
    ("rh_npass", PyInt (int16_at host file 30));
    ("rhb_cdt", PyFloat (float_at host file 32));
    ("rhb_mdt", PyFloat (float_at host file 36));
    ("rh_mapOffset", PyInt (int16_at host file 40));
    ("rh_mapSize", PyInt (int16_at host file 42));
    ("rh_text", PyInt (int16_at host file 44));
    ("rh_ntext", PyInt (int16_at host file 46));
    ("rh_proc", PyInt (int16_at host file 48));
    ("rh_nproc", PyInt (int16_at host file 50));
    ("rh_nchan", PyInt (int16_at host file 52)) ].

Definition header_keys : list string :=
  [ "rh_tag"; "rh_data"; "rh_nsamp"; "rh_bits"; "rh_zero"; "rhf_sps"; "rhf_spm";
    "rhf_mpm"; "rhf_position"; "rhf_range"; "rh_npass"; "rhb_cdt"; "rhb_mdt";
    "rh_mapOffset"; "rh_mapSize"; "rh_text"; "rh_ntext"; "rh_proc"; "rh_nproc";
    "rh_nchan" ].

(** ** Synthetic headers

    A header built from known values, as a test would with
    [struct.pack('<h', ..)] and [struct.pack('<f', ..)]. *)

Record header_values : Type := mk_header_values {
  v_tag : Z; v_data : Z; v_nsamp : Z; v_bits : Z; v_zero : Z;
  v_sps : spec_float; v_spm : spec_float; v_mpm : spec_float;
  v_position : spec_float; v_range : spec_float;
  v_npass : Z;
  v_cdt : spec_float; v_mdt : spec_float;
  v_mapOffset : Z; v_mapSize : Z; v_text : Z; v_ntext : Z;
  v_proc : Z; v_nproc : Z; v_nchan : Z
}.

(** The bit pattern of a binary32 datum; the NaN is the quiet NaN
    [0x7fc00000]. *)
Definition bits_of_binary32 (f : spec_float) : Z :=
  match f with
  | S754_zero s => if s then 2 ^ 31 else 0
  | S754_infinity s => (if s then 2 ^ 31 else 0) + 255 * 2 ^ 23
  | S754_nan => 255 * 2 ^ 23 + 2 ^ 22
  | S754_finite s m e =>
      (if s then 2 ^ 31 else 0)
      + (if Zpos m <? 2 ^ 23 then Zpos m else (e + 150) * 2 ^ 23 + (Zpos m - 2 ^ 23))
  end.

Definition pack_h (z : Z) : list byte := le_split 2 z.
Definition pack_f (f : spec_float) : list byte := le_split 4 (bits_of_binary32 f).

Definition pack_header (v : header_values) : list byte :=
  pack_h (v_tag v) ++ pack_h (v_data v) ++ pack_h (v_nsamp v) ++ pack_h (v_bits v)
  ++ pack_h (v_zero v)
  ++ pack_f (v_sps v) ++ pack_f (v_spm v) ++ pack_f (v_mpm v)
  ++ pack_f (v_position v) ++ pack_f (v_range v)
  ++ pack_h (v_npass v)
  ++ pack_f (v_cdt v) ++ pack_f (v_mdt v)
  ++ pack_h (v_mapOffset v) ++ pack_h (v_mapSize v) ++ pack_h (v_text v)
  ++ pack_h (v_ntext v) ++ pack_h (v_proc v) ++ pack_h (v_nproc v)
  ++ pack_h (v_nchan v).

(** [struct.pack('h', z)] and [struct.pack('f', f)] on the host: the same
    images in its byte order. *)
Definition pack_h_native (host : machine) (z : Z) : list byte :=
  native host (pack_h z).
Definition pack_f_native (host : machine) (f : spec_float) : list byte :=
  native host (pack_f f).

Definition pack_header_native (host : machine) (v : header_values) : list byte :=
  pack_h_native host (v_tag v) ++ pack_h_native host (v_data v)
  ++ pack_h_native host (v_nsamp v) ++ pack_h_native host (v_bits v)
  ++ pack_h_native host (v_zero v)
  ++ pack_f_native host (v_sps v) ++ pack_f_native host (v_spm v)
  ++ pack_f_native host (v_mpm v)
  ++ pack_f_native host (v_position v) ++ pack_f_native host (v_range v)
  ++ pack_h_native host (v_npass v)
  ++ pack_f_native host (v_cdt v) ++ pack_f_native host (v_mdt v)
  ++ pack_h_native host (v_mapOffset v) ++ pack_h_native host (v_mapSize v)
  ++ pack_h_native host (v_text v)
  ++ pack_h_native host (v_ntext v) ++ pack_h_native host (v_proc v)
  ++ pack_h_native host (v_nproc v)
  ++ pack_h_native host (v_nchan v).

Definition dict_of_values (v : header_values) : dict :=
  [ ("rh_tag", PyInt (v_tag v));
    ("rh_data", PyInt (v_data v));
    ("rh_nsamp", PyInt (v_nsamp v));
    ("rh_bits", PyInt (v_bits v));
    ("rh_zero", PyInt (v_zero v));
    ("rhf_sps", PyFloat (v_sps v));
    ("rhf_spm", PyFloat (v_spm v));
    ("rhf_mpm", PyFloat (v_mpm v));
    ("rhf_position", PyFloat (v_position v));
    ("rhf_range", PyFloat (v_range v));
    ("rh_npass", PyInt (v_npass v));
    ("rhb_cdt", PyFloat (v_cdt v));
    ("rhb_mdt", PyFloat (v_mdt v));
    ("rh_mapOffset", PyInt (v_mapOffset v));
    ("rh_mapSize", PyInt (v_mapSize v));
    ("rh_text", PyInt (v_text v));
    ("rh_ntext", PyInt (v_ntext v));
    ("rh_proc", PyInt (v_proc v));
    ("rh_nproc", PyInt (v_nproc v));
    ("rh_nchan", PyInt (v_nchan v)) ].

Definition is_int16 (z : Z) : bool := (- 2 ^ 15 <=? z) && (z <? 2 ^ 15).
Definition is_binary32 (f : spec_float) : bool := valid_binary 24 128 f.

(** Every integer fits 16 signed bits and every float is a binary32 datum. *)
Definition valid_values (v : header_values) : bool :=
  is_int16 (v_tag v) && is_int16 (v_data v) && is_int16 (v_nsamp v)
  && is_int16 (v_bits v) && is_int16 (v_zero v)
  && is_binary32 (v_sps v) && is_binary32 (v_spm v) && is_binary32 (v_mpm v)
  && is_binary32 (v_position v) && is_binary32 (v_range v)
  && is_int16 (v_npass v)
  && is_binary32 (v_cdt v) && is_binary32 (v_mdt v)
  && is_int16 (v_mapOffset v) && is_int16 (v_mapSize v) && is_int16 (v_text v)
  && is_int16 (v_ntext v) && is_int16 (v_proc v) && is_int16 (v_nproc v)
  && is_int16 (v_nchan v).

(** ** Header fields and well-formed files *)

Definition rh_data (host : machine) (file : list byte) : Z := int16_at host file 2.
Definition rh_nsamp (host : machine) (file : list byte) : Z := int16_at host file 4.
Definition rh_bits (host : machine) (file : list byte) : Z := int16_at host file 6.
Definition rh_nchan (host : machine) (file : list byte) : Z := int16_at host file 52.

Definition dtype_of_bits (bits : Z) : option np.dtype :=
  if bits =? 8 then Some np.uint8
  else if bits =? 16 then Some np.uint16
  else if bits =? 32 then Some np.int32
  else None.

(** The byte position of the first sample. *)
Definition header_size (host : machine) (file : list byte) : Z :=
  if rh_data host file <? 1024 then 1024 * rh_data host file
  else 1024 * rh_nchan host file.

(** The number of samples of one scan, all channels together. *)
Definition trace_len (host : machine) (file : list byte) : Z :=
  rh_nsamp host file * rh_nchan host file.

(** What the recentring step does to one sample of a [bits]-wide file. *)
Definition recentre_value (bits : Z) (v : Z) : Z :=
  if (bits =? 8) || (bits =? 16)
  then wrap_int32 (wrap_int32 v - 2 ^ bits / 2)
  else v.

(** A file made of its header followed by exactly [S] complete scans. *)
Definition well_formed (host : machine) (file : list byte) (S : Z) : Prop :=
  (54 <= length file)%nat
  /\ 0 < rh_nsamp host file
  /\ 1 <= rh_nchan host file
  /\ (rh_bits host file = 8 \/ rh_bits host file = 16 \/ rh_bits host file = 32)
  /\ 0 <= header_size host file
  /\ 0 <= S
  /\ len file
     = header_size host file + S * (trace_len host file * (rh_bits host file / 8)).

(** The decoded samples of the first [S] scans of the payload, in stream
    order. *)
Definition payload_samples (host : machine) (file : list byte) (S : Z) : list Z :=
  match dtype_of_bits (rh_bits host file) with
  | Some dt =>
      map (fun bs => recentre_value (rh_bits host file) (np.item host dt bs))
          (group (Z.to_nat (np.itemsize dt))
                 (skipn (Z.to_nat (header_size host file)) file)
                 (Z.to_nat (S * trace_len host file)))
  | None => []
  end.

(** The number of scans a call returns from a file of [S] scans: a positive
    [n_scans] is cut to the scans that remain after [start_scan], any other
    [n_scans] stands for all of them. *)
Definition scans_read (S start_scan n_scans : Z) : Z :=
  if n_scans >? 0 then Z.min n_scans (S - start_scan) else S - start_scan.

(** The scans of a file of [S] scans: [S] blocks of [trace_len] decoded
    samples. *)
Definition scans (host : machine) (file : list byte) (S : Z) : list (list Z) :=
  group (Z.to_nat (trace_len host file)) (payload_samples host file S) (Z.to_nat S).

(** ** Sample files *)

(** Binary32 data used in the sample headers: 1.0, -2.5, the smallest
    subnormal and the largest finite number. *)
Definition f32_one : spec_float := S754_finite false 8388608 (-23).
Definition f32_minus_2_5 : spec_float := S754_finite true 10485760 (-22).
Definition f32_tiny : spec_float := S754_finite false 1 (-149).
Definition f32_max : spec_float := S754_finite false 16777215 104.

Definition sample_values (data nsamp bits nchan : Z) : header_values :=
  {| v_tag := 255; v_data := data; v_nsamp := nsamp; v_bits := bits; v_zero := -32768;
     v_sps := f32_one; v_spm := f32_minus_2_5; v_mpm := f32_tiny;
     v_position := S754_zero true; v_range := f32_max;
     v_npass := -1;
     v_cdt := S754_infinity true; v_mdt := S754_nan;
     v_mapOffset := 1; v_mapSize := 2; v_text := 3; v_ntext := 4;
     v_proc := 5; v_nproc := 32767; v_nchan := nchan |}.

(** A header of [hsize] bytes: the packed fields, then zeros. *)
Definition sample_header (data nsamp bits nchan : Z) (hsize : nat) : list byte :=
  pack_header (sample_values data nsamp bits nchan) ++ repeat Byte.x00 (hsize - 54).

(** The same header written on the host, in its byte order. *)
Definition sample_header_native (host : machine) (data nsamp bits nchan : Z)
           (hsize : nat) : list byte :=
  pack_header_native host (sample_values data nsamp bits nchan)
  ++ repeat Byte.x00 (hsize - 54).

(** The bytes [0, 1, 2, ..] (modulo 256). *)
Definition ramp (n : nat) : list byte :=
  map (fun i => byte.of_Z (Z.of_nat i)) (seq 0 n).

(** 100 scans of 2 one-byte samples on 1 channel after a 1024-byte header. *)
Definition file_100_scans : list byte :=
  sample_header 1024 2 8 1 1024 ++ ramp 200.

(** 3 scans of 4 16-bit samples on 2 channels after a 2048-byte header. *)
Definition file_4x2x3 : list byte :=
  sample_header 1024 4 16 2 2048 ++ ramp (2 * (4 * 2 * 3)).

(** The same with one sample more. *)
Definition file_4x2x3_plus_1 : list byte :=
  file_4x2x3 ++ [Byte.x01; Byte.x02].

(** A file whose sample width is 12 bits. *)
Definition file_12_bits : list byte :=
  sample_header 1024 2 12 1 1024 ++ ramp 24.

(** [256 * 5] words [32768], little-endian. *)
Definition words_32768 : list byte :=
  concat (repeat [Byte.x00; Byte.x80] (256 * 5)).

(** [256 * 5] words [32768] in the byte order of the host. *)
Definition words_32768_native (host : machine) : list byte :=
  concat (repeat (native host [Byte.x00; Byte.x80]) (256 * 5)).

(** The samples a call reads from a sample file ([[]] if it raises). *)
Definition samples_of (file : list byte) (start_scan n_scans : Z) : list Z :=
  match read_samples little_endian_host file (header_of little_endian_host file) start_scan n_scans with
  | Ok datvec => datvec
  | Raise _ => []
  end.

(** ** Encoded samples

    The bytes of a payload whose decoded samples are [vs], as a test would
    write them: unsigned with an offset of [2^(bits-1)] for the widths 8 and
    16, two's complement for the width 32, in the byte order of the host
    that writes them. *)

Definition encode_sample (host : machine) (bits : Z) (v : Z) : list byte :=
  if bits =? 8 then le_split 1 (v + 2 ^ 7)
  else if bits =? 16 then native host (le_split 2 (v + 2 ^ 15))
  else native host (le_split 4 v).

Definition encode_samples (host : machine) (bits : Z) (vs : list Z) : list byte :=
  flat_map (encode_sample host bits) vs.

(** The signed range of a [bits]-wide sample. *)
Definition in_sample_range (bits : Z) (v : Z) : Prop :=
  - 2 ^ (bits - 1) <= v < 2 ^ (bits - 1).

(** What a header field may hold: a 16-bit signed integer or a binary32
    datum. *)
Definition header_value_ok (v : pyval) : Prop :=
  match v with
  | PyInt z => - 2 ^ 15 <= z < 2 ^ 15
  | PyFloat f => valid_binary 24 128 f = true
  end.

(** The exceptions [readdzt] lets out. *)
Definition readdzt_exceptions : list exn :=
  [ StructError; UnboundLocalError "datatype"; NameError "warnings";
    OverflowError; OSError; ValueError; MemoryError ].

(** The matrix a call returns from a sample file (the empty array if it
    raises). *)
Definition matrix_of (file : list byte) (start_scan n_scans : Z) : np.ndarray :=
  match readdzt little_endian_host file start_scan n_scans with
  | Ok (data, _) => data
  | Raise _ => np.mk_ndarray (0, 0) []
  end.

(** [np.hstack((a, b))] for two-dimensional arrays with the same number of
    rows: the columns of [a] followed by the columns of [b]. *)
Definition hstack (a b : np.ndarray) : np.ndarray :=
  {| np.shape := (fst (np.shape a), snd (np.shape a) + snd (np.shape b));
     np.tolist := map (fun rows => fst rows ++ snd rows)
                      (combine (np.tolist a) (np.tolist b)) |}.

(** * Properties *)

(** ** The header *)

Ltac uncons file :=
  let b := fresh "b" in destruct file as [| b file].

Lemma read_header_ok (host : machine) (file : list byte) :
  (54 <= length file)%nat ->
  with_open file (read_header host) = Ok (header_of host file).
Proof.
  intros H.
  do 54 (uncons file; [simpl in H; lia |]).
  clear H. destruct host as [[] mem top]; reflexivity.
Qed.

Lemma read_header_short (host : machine) (file : list byte) :
  (length file < 54)%nat ->
  with_open file (read_header host) = Raise StructError.
Proof.
  intros H.
  do 54 (uncons file; [destruct host as [[] mem top]; reflexivity |]).
  simpl in H; lia.
Qed.

Lemma read_header_inv (host : machine) (file : list byte) (info : dict) :
  with_open file (read_header host) = Ok info ->
  (54 <= length file)%nat /\ info = header_of host file.
Proof.
  intros H.
  destruct (Nat.le_gt_cases 54 (length file)) as [Hlen | Hlen].
  - rewrite (read_header_ok host file Hlen) in H. split; [assumption | congruence].
  - rewrite (read_header_short host file Hlen) in H. discriminate.
Qed.

Lemma getint_header (host : machine) (file : list byte) :
  getint (header_of host file) "rh_data" = Ok (int16_at host file 2)
  /\ getint (header_of host file) "rh_nsamp" = Ok (int16_at host file 4)
  /\ getint (header_of host file) "rh_bits" = Ok (int16_at host file 6)
  /\ getint (header_of host file) "rh_nchan" = Ok (int16_at host file 52).
Proof. repeat split. Qed.

(** *** Round trip of the two field types *)

Lemma signed_16_pack (z : Z) :
  is_int16 z = true -> signed 16 (le_combine (pack_h z)) = z.
Proof.
  unfold is_int16, pack_h, signed. intros H.
  apply andb_prop in H. destruct H as [Hlo Hhi].
  apply Z.leb_le in Hlo. apply Z.ltb_lt in Hhi.
  rewrite le_combine_split.
  change (Z.of_nat 2 * 8) with 16. change (16 - 1) with 15.
  destruct (Z.ltb_spec (z mod 2 ^ 16) (2 ^ 15)) as [Hs | Hs];
    Z.div_mod_to_equations; lia.
Qed.

Lemma digits2_pos_log2 (m : positive) :
  Zpos (digits2_pos m) = Z.log2 (Zpos m) + 1.
Proof.
  induction m as [m IH | m IH |]; cbn [digits2_pos].
  - rewrite Pos2Z.inj_succ, IH, Pos2Z.inj_xI, Z.log2_succ_double by lia. lia.
  - rewrite Pos2Z.inj_succ, IH, Pos2Z.inj_xO, Z.log2_double by lia. lia.
  - reflexivity.
Qed.

Lemma digits2_pos_bounds (m : positive) :
  2 ^ (Zpos (digits2_pos m) - 1) <= Zpos m < 2 ^ Zpos (digits2_pos m).
Proof.
  rewrite digits2_pos_log2.
  replace (Z.log2 (Zpos m) + 1 - 1) with (Z.log2 (Zpos m)) by lia.
  rewrite Z.add_1_r. apply Z.log2_spec. lia.
Qed.

Lemma binary32_fields (s : bool) (E M : Z) :
  0 <= E < 256 -> 0 <= M < 2 ^ 23 ->
  let w := (if s then 2 ^ 31 else 0) + E * 2 ^ 23 + M in
  Z.testbit w 31 = s
  /\ Z.land (Z.shiftr w 23) 255 = E
  /\ Z.land w (Z.ones 23) = M.
Proof.
  intros HE HM w.
  assert (Hw : w = (if s then 1 else 0) * 2 ^ 31 + E * 2 ^ 23 + M)
    by (subst w; destruct s; lia).
  clearbody w. subst w.
  change 255 with (Z.ones 8).
  rewrite !Z.land_ones, Z.shiftr_div_pow2 by lia.
  repeat split.
  - destruct s.
    + apply Z.testbit_true; [lia |]. Z.div_mod_to_equations; lia.
    + apply Z.testbit_false; [lia |]. Z.div_mod_to_equations; lia.
  - destruct s; Z.div_mod_to_equations; lia.
  - destruct s; Z.div_mod_to_equations; lia.
Qed.

Lemma binary32_of_fields (s : bool) (E M : Z) :
  0 <= E < 256 -> 0 <= M < 2 ^ 23 ->
  binary32_of_bits ((if s then 2 ^ 31 else 0) + E * 2 ^ 23 + M) =
    if E =? 0 then
      match M with
      | Zpos p => S754_finite s p (-149)
      | _ => S754_zero s
      end
    else if E =? 255 then
      if M =? 0 then S754_infinity s else S754_nan
    else
      match M + 2 ^ 23 with
      | Zpos p => S754_finite s p (E - 150)
      | _ => S754_nan
      end.
Proof.
  intros HE HM.
  destruct (binary32_fields s E M HE HM) as (Hs & He & Hm).
  unfold binary32_of_bits. rewrite Hs, He, Hm. reflexivity.
Qed.

(** The shape of a finite binary32 datum: subnormal, or normal with 24
    significant bits. *)
Lemma binary32_finite_inv (m : positive) (e : Z) :
  bounded 24 128 m e = true ->
  (Zpos m < 2 ^ 23 /\ e = -149)
  \/ (2 ^ 23 <= Zpos m < 2 ^ 24 /\ -149 <= e <= 104).
Proof.
  unfold bounded, canonical_mantissa, fexp, emin. intros H.
  apply andb_prop in H. destruct H as [Hc He].
  apply Z.eqb_eq in Hc. apply Z.leb_le in He.
  pose proof (digits2_pos_bounds m) as [Hlo Hhi].
  set (d := Zpos (digits2_pos m)) in *.
  assert (Hd : 1 <= d) by (subst d; lia).
  destruct (Z.lt_ge_cases d 24) as [Hlt | Hge].
  - left. split; [| lia].
    apply Z.lt_le_trans with (2 ^ d); [assumption |].
    apply Z.pow_le_mono_r; lia.
  - right. assert (d = 24) by lia.
    replace d with 24 in * by lia. change (24 - 1) with 23 in Hlo. lia.
Qed.

Lemma bits_of_binary32_range (f : spec_float) :
  is_binary32 f = true -> 0 <= bits_of_binary32 f < 2 ^ 32.
Proof.
  destruct f as [s | s | | s m e]; cbn [bits_of_binary32 is_binary32 valid_binary].
  - destruct s; lia.
  - destruct s; lia.
  - lia.
  - unfold is_binary32; cbn [valid_binary]. intros H.
    destruct (binary32_finite_inv m e H) as [[Hm He] | [Hm He]].
    + destruct (Z.ltb_spec (Zpos m) (2 ^ 23)); [| lia]. destruct s; lia.
    + destruct (Z.ltb_spec (Zpos m) (2 ^ 23)); [lia |]. destruct s; lia.
Qed.

Lemma binary32_roundtrip (f : spec_float) :
  is_binary32 f = true -> binary32_of_bits (bits_of_binary32 f) = f.
Proof.
  destruct f as [s | s | | s m e]; unfold is_binary32; cbn [valid_binary bits_of_binary32].
  - intros _. replace (if s then 2 ^ 31 else 0) with ((if s then 2 ^ 31 else 0) + 0 * 2 ^ 23 + 0) by lia.
    rewrite binary32_of_fields by lia. reflexivity.
  - intros _. replace ((if s then 2 ^ 31 else 0) + 255 * 2 ^ 23)
      with ((if s then 2 ^ 31 else 0) + 255 * 2 ^ 23 + 0) by lia.
    rewrite binary32_of_fields by lia. reflexivity.
  - intros _. reflexivity.
  - intros H. destruct (binary32_finite_inv m e H) as [[Hm He] | [Hm He]].
    + destruct (Z.ltb_spec (Zpos m) (2 ^ 23)); [| lia].
      replace ((if s then 2 ^ 31 else 0) + Zpos m)
        with ((if s then 2 ^ 31 else 0) + 0 * 2 ^ 23 + Zpos m) by lia.
      rewrite binary32_of_fields by lia. subst e. reflexivity.
    + destruct (Z.ltb_spec (Zpos m) (2 ^ 23)); [lia |].
      rewrite Z.add_assoc.
      rewrite binary32_of_fields by lia.
      destruct (Z.eqb_spec (e + 150) 0); [lia |].
      destruct (Z.eqb_spec (e + 150) 255); [lia |].
      replace (Zpos m - 2 ^ 23 + 2 ^ 23) with (Zpos m) by lia.
      replace (e + 150 - 150) with e by lia. reflexivity.
Qed.

Lemma unpack_pack_f (f : spec_float) :
  is_binary32 f = true -> binary32_of_bits (le_combine (pack_f f)) = f.
Proof.
  intros H. unfold pack_f. rewrite le_combine_split.
  change (Z.of_nat 4 * 8) with 32.
  rewrite Z.mod_small by (apply bits_of_binary32_range; assumption).
  apply binary32_roundtrip; assumption.
Qed.

Lemma length_pack_header (v : header_values) : length (pack_header v) = 54%nat.
Proof. reflexivity. Qed.

(** The byte order of the host, applied twice, gives the bytes back; on a
    little-endian host it leaves them as they are. *)
Lemma native_involutive (host : machine) (bs : list byte) :
  native host (native host bs) = bs.
Proof. unfold native. destruct (order host); [reflexivity | apply rev_involutive]. Qed.

Lemma native_little (host : machine) (bs : list byte) :
  order host = LittleEndian -> native host bs = bs.
Proof. intros H. unfold native. rewrite H. reflexivity. Qed.

Lemma pack_header_native_little (host : machine) (v : header_values) :
  order host = LittleEndian -> pack_header_native host v = pack_header v.
Proof.
  intros H. unfold pack_header_native, pack_h_native, pack_f_native.
  rewrite !(native_little host) by assumption. reflexivity.
Qed.

Lemma header_of_pack (host : machine) (v : header_values) (rest : list byte) :
  valid_values v = true ->
  header_of host (pack_header_native host v ++ rest) = dict_of_values v.
Proof.
  destruct host as [[] mem top]; destruct v;
    unfold valid_values, dict_of_values, header_of;
    cbn [v_tag v_data v_nsamp v_bits v_zero v_sps v_spm v_mpm v_position v_range
         v_npass v_cdt v_mdt v_mapOffset v_mapSize v_text v_ntext v_proc v_nproc v_nchan];
    intros H;
    do 19 (apply andb_prop in H; destruct H as [H ?]);
    repeat match goal with
           | |- (_, PyInt _) :: _ = _ :: _ =>
               f_equal; [f_equal; f_equal; apply signed_16_pack; assumption |]
           | |- (_, PyFloat _) :: _ = _ :: _ =>
               f_equal; [f_equal; f_equal; apply unpack_pack_f; assumption |]
           end;
    do 3 f_equal; apply signed_16_pack; assumption.
Qed.

(** C1, as the code has it (the claim as stated fails on a big-endian host,
    see [header_fields_big_endian_counterexample]).  On every host, every
    stream of at least 54 bytes decodes to the mapping of the layout table:
    the twenty fields read at byte offsets 0, 2, 4, 6, 8, 10, 14, 18, 22, 26,
    30, 32, 36, 40, 42, 44, 46, 48, 50 and 52, each as a signed 16-bit
    integer or binary32 float in the byte order of the host.  Hence a buffer
    whose first 54 bytes are the image of known values (16-bit integers,
    binary32 floats) packed in the byte order of the host decodes back to
    exactly those values; on a little-endian host that is the little-endian
    image of the claim. *)
Theorem header_field_fidelity (host : machine) (file : list byte) :
  (54 <= length file)%nat ->
  with_open file (read_header host) = Ok (header_of host file)
  /\ (forall v : header_values,
        valid_values v = true ->
        firstn 54 file = pack_header_native host v ->
        with_open file (read_header host) = Ok (dict_of_values v))
  /\ (order host = LittleEndian ->
      forall v : header_values,
        valid_values v = true ->
        firstn 54 file = pack_header v ->
        with_open file (read_header host) = Ok (dict_of_values v)).
Proof.
  intros Hlen.
  assert (Hpack : forall v : header_values,
             valid_values v = true ->
             firstn 54 file = pack_header_native host v ->
             with_open file (read_header host) = Ok (dict_of_values v)).
  { intros v Hv Hfile.
    rewrite read_header_ok by assumption. f_equal.
    rewrite <- (firstn_skipn 54 file), Hfile.
    apply header_of_pack; assumption. }
  split; [apply read_header_ok; assumption |].
  split; [exact Hpack |].
  intros Hle v Hv Hfile. apply Hpack; [assumption |].
  rewrite pack_header_native_little by assumption. exact Hfile.
Qed.

(** C10 (header mapping invariant).  Whatever the byte values and the host,
    decoding the header of a stream of at least 54 bytes succeeds and the
    mapping has exactly the twenty documented keys, in insertion order. *)
Theorem header_mapping_keys (host : machine) (file : list byte) :
  (54 <= length file)%nat ->
  exists info : dict,
    with_open file (read_header host) = Ok info
    /\ keys info = header_keys
    /\ length info = 20%nat
    /\ NoDup (keys info).
Proof.
  intros Hlen. exists (header_of host file).
  split; [apply read_header_ok; assumption |].
  split; [reflexivity |]. split; [reflexivity |].
  change (keys (header_of host file)) with header_keys.
  unfold header_keys.
  repeat (constructor; [cbn [In]; intuition discriminate |]).
  constructor.
Qed.
Lemma iter_xO_spec (m p : positive) :
  Zpos (Pos.iter xO m p) = Zpos m * 2 ^ Zpos p
  /\ digits2_pos (Pos.iter xO m p) = (digits2_pos m + p)%positive.
Proof.
  induction p as [| p [IHv IHd]] using Pos.peano_ind.
  - cbn [Pos.iter digits2_pos]. split; lia.
  - rewrite Pos.iter_succ. cbn [digits2_pos]. rewrite IHd. split; [| lia].
    rewrite Pos2Z.inj_xO, IHv, Pos2Z.inj_succ, Z.pow_succ_r by lia. lia.
Qed.

(** Rounding [m * 2^-3] to binary64 is exact when [m] has at most 53 bits. *)
Lemma binary_round_small (s : bool) (m : positive) :
  Zpos m < 2 ^ 53 ->
  exists mz ez,
    binary_round 53 1024 s m (-3) = S754_finite s mz ez
    /\ -55 <= ez <= -3
    /\ Zpos mz = Zpos m * 2 ^ (-3 - ez).
Proof.
  intros Hm.
  pose proof (digits2_pos_bounds m) as [Hlo Hhi].
  set (d := Zpos (digits2_pos m)) in *.
  assert (Hd : 1 <= d <= 53).
  { split; [subst d; lia |].
    destruct (Z.le_gt_cases d 53) as [|Hgt]; [assumption | exfalso].
    assert (2 ^ 53 <= 2 ^ (d - 1)) by (apply Z.pow_le_mono_r; lia). lia. }
  assert (Haux : forall mz ez, Zpos (digits2_pos mz) = 53 -> -1074 <= ez <= 971 ->
            binary_round_aux 53 1024 s (Zpos mz) ez loc_Exact = S754_finite s mz ez).
  { intros mz ez Hmz Hez. unfold binary_round_aux, shr_fexp, fexp, emin.
    cbn [Zdigits2 shr_record_of_loc]. rewrite Hmz.
    replace (Z.max (53 + ez - 53) (3 - 1024 - 53) - ez) with 0 by lia.
    cbn [shr shr_m loc_of_shr_record round_nearest_even Zdigits2 shr_record_of_loc].
    rewrite Hmz.
    replace (Z.max (53 + ez - 53) (3 - 1024 - 53) - ez) with 0 by lia.
    cbn [shr shr_m].
    destruct (Z.leb_spec ez (1024 - 53)); [reflexivity | lia]. }
  unfold binary_round, shl_align, fexp, emin. fold d.
  replace (Z.max (d + -3 - 53) (3 - 1024 - 53)) with (d - 56) by lia.
  destruct (d - 56 - -3) as [| p | p] eqn:Hsh.
  - exists m, (-3). rewrite Haux by (fold d; lia).
    repeat split; try lia.
  - lia.
  - destruct (iter_xO_spec m p) as [Hv Hdig].
    exists (Pos.iter xO m p), (d - 56).
    rewrite Haux by (try rewrite Hdig, Pos2Z.inj_add; fold d; lia).
    repeat split; try lia.
    rewrite Hv. f_equal. f_equal. lia.
Qed.

Lemma int_truediv8_exact (a : Z) :
  Z.abs a < 2 ^ 53 ->
  (q <- truediv_pow2 a 3 ;; int_of_float q) = Ok (Z.quot a 8).
Proof.
  intros Ha. unfold truediv_pow2, binary_normalize.
  destruct a as [| m | m].
  - reflexivity.
  - destruct (binary_round_small false m) as (mz & ez & Hr & He & Hv); [lia |].
    change (- (3)) with (-3). rewrite Hr. cbn [bind int_of_float].
    destruct (Z.leb_spec 0 ez); [lia |].
    rewrite Hv. f_equal.
    rewrite Z.quot_div_nonneg by lia.
    replace (2 ^ (- ez)) with (8 * 2 ^ (-3 - ez))
      by (replace (- ez) with ((-3 - ez) + 3) by lia; rewrite Z.pow_add_r by lia; lia).
    rewrite Z.div_mul_cancel_r; [reflexivity | lia | ].
    apply Z.pow_nonzero; lia.
  - destruct (binary_round_small true m) as (mz & ez & Hr & He & Hv); [lia |].
    change (- (3)) with (-3). rewrite Hr. cbn [bind int_of_float].
    destruct (Z.leb_spec 0 ez); [lia |].
    rewrite Hv. f_equal.
    change (Z.neg m) with (- Z.pos m). rewrite Z.quot_opp_l by lia.
    rewrite Z.quot_div_nonneg by lia. f_equal.
    replace (2 ^ (- ez)) with (8 * 2 ^ (-3 - ez))
      by (replace (- ez) with ((-3 - ez) + 3) by lia; rewrite Z.pow_add_r by lia; lia).
    rewrite Z.div_mul_cancel_r; [reflexivity | lia | ].
    apply Z.pow_nonzero; lia.
Qed.

(** Above 2^53 the quotient is rounded to the nearest binary64 (ties to
    even), and a quotient beyond the binary64 range raises. *)
Lemma int_truediv8_rounds :
  (q <- truediv_pow2 (8 * (2 ^ 53 + 1)) 3 ;; int_of_float q) = Ok (2 ^ 53)
  /\ (q <- truediv_pow2 (8 * (2 ^ 53 + 3)) 3 ;; int_of_float q) = Ok (2 ^ 53 + 4)
  /\ (q <- truediv_pow2 (- (8 * (2 ^ 53 + 1))) 3 ;; int_of_float q) = Ok (- 2 ^ 53)
  /\ (q <- truediv_pow2 17 3 ;; int_of_float q) = Ok 2
  /\ (q <- truediv_pow2 (-17) 3 ;; int_of_float q) = Ok (-2)
  /\ truediv_pow2 (2 ^ 1027) 3 = Raise OverflowError.
Proof. repeat split; vm_compute; reflexivity. Qed.
(** ** Blocks of a list *)

Section Group.

Context {A : Type}.
Implicit Types (l : list A) (n c d i : nat).

Lemma length_group n l c : length (group n l c) = c.
Proof. revert l; induction c as [| c IH]; intros l; cbn [group length]; auto. Qed.

Lemma group_add n l c d :
  group n l (c + d) = group n l c ++ group n (skipn (c * n) l) d.
Proof.
  revert l; induction c as [| c IH]; intros l.
  - reflexivity.
  - cbn [group Nat.add app]. rewrite IH, skipn_skipn.
    replace (c * n + n)%nat with (S c * n)%nat by lia. reflexivity.
Qed.

Lemma firstn_group n l c d : firstn c (group n l (c + d)) = group n l c.
Proof.
  rewrite group_add, firstn_app, length_group, Nat.sub_diag.
  cbn [firstn]. rewrite app_nil_r.
  apply firstn_all2. rewrite length_group. lia.
Qed.

Lemma skipn_group n l c d :
  skipn c (group n l (c + d)) = group n (skipn (c * n) l) d.
Proof.
  rewrite group_add, skipn_app, length_group, Nat.sub_diag.
  rewrite skipn_all2 by (rewrite length_group; lia). reflexivity.
Qed.

(** A window of blocks is the blocks of the window. *)
Lemma group_window n l a b c :
  group n (skipn (a * n) l) b = firstn b (skipn a (group n l (a + (b + c)))).
Proof. rewrite skipn_group, firstn_group. reflexivity. Qed.

Lemma group_firstn n l c : group n (firstn (c * n) l) c = group n l c.
Proof.
  revert l; induction c as [| c IH]; intros l.
  - reflexivity.
  - cbn [group]. rewrite firstn_firstn, skipn_firstn_comm.
    replace (Nat.min n (S c * n)) with n by lia.
    replace (S c * n - n)%nat with (c * n)%nat by lia.
    rewrite IH. reflexivity.
Qed.

Lemma nth_group n l c i :
  (i < c)%nat -> nth i (group n l c) [] = firstn n (skipn (i * n) l).
Proof.
  revert l i; induction c as [| c IH]; intros l i Hi; [lia |].
  destruct i as [| i]; cbn [group nth].
  - reflexivity.
  - rewrite IH by lia. rewrite skipn_skipn.
    replace (i * n + n)%nat with (S i * n)%nat by lia. reflexivity.
Qed.

Lemma Forall_length_group n l c :
  (c * n <= length l)%nat -> Forall (fun g => length g = n) (group n l c).
Proof.
  revert l; induction c as [| c IH]; intros l Hl; cbn [group]; constructor.
  - rewrite length_firstn. lia.
  - apply IH. rewrite length_skipn. lia.
Qed.

Lemma group_map {B} (f : A -> B) n l c :
  group n (map f l) c = map (map f) (group n l c).
Proof.
  revert l; induction c as [| c IH]; intros l; cbn [group map].
  - reflexivity.
  - rewrite firstn_map, skipn_map, IH. reflexivity.
Qed.

End Group.

Lemma map_nth_seq (l : list Z) :
  map (fun r => nth r l 0) (seq 0 (length l)) = l.
Proof.
  apply nth_ext with (d := 0) (d' := 0).
  - rewrite length_map, length_seq. reflexivity.
  - intros i Hi. rewrite length_map, length_seq in Hi.
    pose proof (map_nth (fun r => nth r l 0) (seq 0 (length l)) 0%nat i) as E.
    cbv beta in E.
    rewrite (nth_indep _ 0 (nth 0 l 0)) by (rewrite length_map, length_seq; assumption).
    rewrite E, seq_nth by assumption. reflexivity.
Qed.

(** ** Arrays *)

Lemma nth_map_rows (rows : list (list Z)) (r j : nat) :
  nth j (map (fun row => nth r row 0) rows) 0 = nth r (nth j rows []) 0.
Proof.
  destruct (Nat.lt_ge_cases j (length rows)) as [Hj | Hj].
  - pose proof (map_nth (fun row => nth r row 0) rows [] j) as E.
    cbv beta in E.
    rewrite (nth_indep _ 0 (nth r [] 0)) by (rewrite length_map; assumption).
    exact E.
  - rewrite (nth_overflow (map _ rows)) by (rewrite length_map; assumption).
    rewrite (nth_overflow rows) by assumption. destruct r; reflexivity.
Qed.

(** Column [j] of a transposed array is row [j] of the array. *)
Lemma column_T (n k : Z) (rows : list (list Z)) (j : nat) :
  np.column (np.T (np.mk_ndarray (n, k) rows)) j
  = map (fun r => nth r (nth j rows []) 0) (seq 0 (Z.to_nat k)).
Proof.
  unfold np.column, np.T. cbn [np.shape np.tolist].
  rewrite map_map. apply map_ext. intros r. apply nth_map_rows.
Qed.

Lemma get_T (n k : Z) (rows : list (list Z)) (i j : nat) :
  np.get (np.T (np.mk_ndarray (n, k) rows)) i j
  = if (i <? Z.to_nat k)%nat then nth i (nth j rows []) 0 else 0.
Proof.
  unfold np.get, np.T. cbn [np.shape np.tolist].
  destruct (Nat.ltb_spec i (Z.to_nat k)) as [Hi | Hi].
  - pose proof (map_nth (fun r => map (fun row => nth r row 0) rows)
                  (seq 0 (Z.to_nat k)) 0%nat i) as E.
    cbv beta in E.
    rewrite (nth_indep _ [] (map (fun row => nth 0 row 0) rows))
      by (rewrite length_map, length_seq; assumption).
    rewrite E, seq_nth by assumption. cbn [Nat.add].
    apply nth_map_rows.
  - rewrite (nth_overflow (map _ _)) by (rewrite length_map, length_seq; assumption).
    destruct j; reflexivity.
Qed.

(** ** The phases of [readdzt] on a decoded header *)

Section Phases.

Variables (host : machine) (file : list byte).

Let info := header_of host file.

Lemma select_datatype_header :
  select_datatype info = Ok (dtype_of_bits (rh_bits host file)).
Proof.
  unfold select_datatype, dtype_of_bits, info.
  destruct (getint_header host file) as (_ & _ & -> & _). cbn [bind].
  fold (rh_bits host file).
  destruct (rh_bits host file =? 8); [reflexivity |].
  destruct (rh_bits host file =? 16); [reflexivity |].
  destruct (rh_bits host file =? 32); reflexivity.
Qed.

Lemma head_offset_header : head_offset info = Ok (header_size host file).
Proof.
  unfold head_offset, header_size, info, minheadsize.
  destruct (getint_header host file) as (-> & _ & _ & ->). cbn [bind].
  fold (rh_data host file). fold (rh_nchan host file).
  destruct (rh_data host file <? 1024); reflexivity.
Qed.

Lemma start_offset_header (start_scan : Z) :
  start_offset info start_scan
  = try_except
      (q <- truediv_pow2
              (start_scan * rh_nchan host file * rh_nsamp host file * rh_bits host file) 3 ;;
       int_of_float q)
      (Raise (NameError "warnings")).
Proof. reflexivity. Qed.

Lemma start_offset_exact (start_scan : Z) :
  Z.abs (start_scan * rh_nchan host file * rh_nsamp host file * rh_bits host file) < 2 ^ 53 ->
  start_offset info start_scan
  = Ok (Z.quot (start_scan * rh_nchan host file * rh_nsamp host file * rh_bits host file) 8).
Proof.
  intros H. rewrite start_offset_header, int_truediv8_exact by assumption. reflexivity.
Qed.

Lemma count_header (n_scans : Z) :
  count info n_scans
  = Ok (if n_scans >? 0 then n_scans * rh_nsamp host file * rh_nchan host file else -1).
Proof.
  unfold count, info.
  destruct (getint_header host file) as (_ & -> & _ & ->). cbn [bind try_except].
  destruct (n_scans >? 0); reflexivity.
Qed.

Lemma recentre_header (datvec : list Z) :
  recentre info datvec = Ok (map (recentre_value (rh_bits host file)) datvec).
Proof.
  unfold recentre, recentre_value, info.
  destruct (getint_header host file) as (_ & _ & -> & _). cbn [bind].
  fold (rh_bits host file).
  destruct (rh_bits host file =? 8); cbn [bind orb]; [reflexivity |].
  destruct (rh_bits host file =? 16); [reflexivity |].
  rewrite map_id. reflexivity.
Qed.

Lemma build_matrix_header (datvec : list Z) :
  build_matrix info datvec
  = (m <- np.reshape datvec (trace_len host file) ;; Ok (np.T m)).
Proof. reflexivity. Qed.

Lemma readdzt_header (start_scan n_scans : Z) :
  (54 <= length file)%nat ->
  readdzt host file start_scan n_scans
  = (datvec <- read_samples host file info start_scan n_scans ;;
     data <- build_matrix info datvec ;;
     Ok (data, info)).
Proof.
  intros H. unfold readdzt. rewrite read_header_ok by assumption. reflexivity.
Qed.

End Phases.

(** ** Reading the samples *)

(** [np.fromfile] from a position followed by exactly [r] whole items. *)
Lemma fromfile_items (host : machine) (file : list byte) (dt : np.dtype)
      (offset count r : Z) :
  0 <= offset < 2 ^ 63 ->
  - 2 ^ 63 <= count < 2 ^ 63 ->
  0 <= r ->
  len file - offset = r * np.itemsize dt ->
  r * np.itemsize dt < 2 ^ 63 ->
  count <= r
  \/ (count * np.itemsize dt < 2 ^ 63 /\ count * np.itemsize dt <= memory host) ->
  np.fromfile host file dt offset count
  = Ok (map (np.item host dt)
            (group (Z.to_nat (np.itemsize dt)) (skipn (Z.to_nat offset) file)
                   (Z.to_nat (if count <? 0 then r else Z.min count r)))).
Proof.
  intros Hoff Hcnt Hr Hlen Hbig Hmem. unfold np.fromfile.
  assert (Hes : 0 < np.itemsize dt) by (destruct dt; reflexivity).
  destruct (Z.leb_spec (- 2 ^ 63) offset); [| lia].
  destruct (Z.ltb_spec offset (2 ^ 63)); [| lia].
  destruct (Z.leb_spec (- 2 ^ 63) count); [| lia].
  destruct (Z.ltb_spec count (2 ^ 63)); [| lia].
  cbn [andb negb].
  destruct (Z.ltb_spec offset 0); [lia |].
  destruct (Z.ltb_spec (len file) offset); [nia |]. cbn [andb].
  assert (Hrest : len (skipn (Z.to_nat offset) file) / np.itemsize dt = r).
  { unfold len in *. rewrite length_skipn.
    replace (Z.of_nat (length file - Z.to_nat offset)) with (r * np.itemsize dt) by lia.
    apply Z.div_mul. lia. }
  rewrite Hrest, Hlen, Z.quot_mul by lia.
  destruct (Z.ltb_spec count 0) as [Hc | Hc].
  - destruct (Z.ltb_spec r 0); [lia |].
    destruct (Z.leb_spec (2 ^ 63) (r * np.itemsize dt)); [lia |].
    rewrite Z.ltb_irrefl. cbn [andb]. rewrite Z.min_id. reflexivity.
  - destruct (Z.ltb_spec count 0); [lia |].
    destruct (Z.leb_spec (2 ^ 63) (count * np.itemsize dt)); [nia |].
    destruct (Z.ltb_spec r count); cbn [andb]; [| reflexivity].
    destruct (Z.ltb_spec (memory host) (count * np.itemsize dt)); [lia | reflexivity].
Qed.

Lemma dtype_of_supported_bits (bits : Z) :
  bits = 8 \/ bits = 16 \/ bits = 32 ->
  exists dt, dtype_of_bits bits = Some dt
             /\ bits = 8 * np.itemsize dt
             /\ bits / 8 = np.itemsize dt.
Proof.
  intros [-> | [-> | ->]];
    [exists np.uint8 | exists np.uint16 | exists np.int32]; repeat split.
Qed.

Section Window.

Variables (host : machine) (file : list byte) (S : Z).
Hypothesis Hwf : well_formed host file S.
Hypothesis Hsize : len file < 2 ^ 50.

Let k := trace_len host file.

Lemma trace_len_pos : 0 < k.
Proof.
  destruct Hwf as (_ & Hns & Hnc & _). unfold k, trace_len. nia.
Qed.

(** On a well-formed file a call that starts inside the payload comes down
    to one [np.fromfile], from the first byte of scan [start_scan], followed
    by the recentring. *)
Lemma read_samples_fromfile (start_scan n_scans : Z) (dt : np.dtype) :
  dtype_of_bits (rh_bits host file) = Some dt ->
  0 <= start_scan <= S ->
  read_samples host file (header_of host file) start_scan n_scans
  = (datvec <- np.fromfile host file dt
                 (header_size host file + start_scan * k * np.itemsize dt)
                 (if n_scans >? 0 then n_scans * k else -1) ;;
     recentre (header_of host file) datvec).
Proof.
  intros Hdt Hstart.
  pose proof trace_len_pos as Hk.
  destruct Hwf as (Hlen & Hns & Hnc & Hbits & Hhs & HS & Hfile).
  destruct (dtype_of_supported_bits _ Hbits) as (dt' & Hdt' & Hb8 & Hes).
  rewrite Hdt in Hdt'. injection Hdt' as <-.
  fold k in Hfile. rewrite Hes in Hfile.
  set (es := np.itemsize dt) in *.
  assert (Hespos : 0 < es) by (subst es; destruct dt; reflexivity).
  assert (Hske : 0 <= start_scan * k * es <= S * k * es) by nia.
  assert (HSk : S * (k * es) = S * k * es) by ring.
  unfold read_samples.
  rewrite select_datatype_header, head_offset_header, count_header, Hdt.
  cbn [bind].
  rewrite start_offset_exact; cycle 1.
  { replace (start_scan * rh_nchan host file * rh_nsamp host file * rh_bits host file)
      with (start_scan * k * es * 8) by (rewrite Hb8; unfold k, trace_len; fold es; ring).
    rewrite Z.abs_eq by lia. lia. }
  replace (start_scan * rh_nchan host file * rh_nsamp host file * rh_bits host file)
    with (start_scan * k * es * 8) by (rewrite Hb8; unfold k, trace_len; fold es; ring).
  rewrite Z.quot_mul by lia. cbn [bind].
  replace (n_scans * rh_nsamp host file * rh_nchan host file) with (n_scans * k)
    by (unfold k, trace_len; ring).
  reflexivity.
Qed.

(** On a well-formed file a window that starts inside the payload yields
    the samples of the scans it covers, when it ends inside the payload or
    the host grants the array of the samples asked for. *)
Lemma read_samples_window (start_scan n_scans : Z) :
  0 <= start_scan <= S ->
  n_scans <= S - start_scan
  \/ (n_scans * k * (rh_bits host file / 8) < 2 ^ 63
      /\ n_scans * k * (rh_bits host file / 8) <= memory host) ->
  read_samples host file (header_of host file) start_scan n_scans
  = Ok (firstn (Z.to_nat (scans_read S start_scan n_scans * k))
               (skipn (Z.to_nat (start_scan * k)) (payload_samples host file S))).
Proof.
  intros Hstart Hn.
  pose proof trace_len_pos as Hk.
  pose proof Hwf as (Hlen & Hns & Hnc & Hbits & Hhs & HS & Hfile).
  destruct (dtype_of_supported_bits _ Hbits) as (dt & Hdt & Hb8 & Hes).
  rewrite (read_samples_fromfile start_scan n_scans dt Hdt Hstart).
  fold k in Hfile. rewrite Hes in Hfile, Hn.
  set (es := np.itemsize dt) in *.
  set (hs := header_size host file) in *.
  assert (Hespos : 0 < es) by (subst es; destruct dt; reflexivity).
  assert (Hsk : 0 <= start_scan * k <= S * k) by nia.
  assert (Hske : 0 <= start_scan * k * es <= S * k * es) by nia.
  assert (HSk : S * (k * es) = S * k * es) by ring.
  unfold payload_samples. rewrite Hdt. fold hs. fold es.
  set (cnt := if n_scans >? 0 then n_scans * k else -1).
  rewrite (fromfile_items host file dt (hs + start_scan * k * es) cnt ((S - start_scan) * k));
    [| lia | | nia | fold es; lia | fold es; nia | fold es ].
  2:{ subst cnt. destruct (Z.gtb_spec n_scans 0); nia. }
  2:{ subst cnt. destruct (Z.gtb_spec n_scans 0); [| left; nia].
      destruct Hn as [Hn | Hn]; [left; nia | right; exact Hn]. }
  cbn [bind]. rewrite recentre_header. f_equal.
  rewrite map_map, skipn_map, firstn_map. f_equal.
  assert (Hnread : (if cnt <? 0 then (S - start_scan) * k else Z.min cnt ((S - start_scan) * k))
                   = scans_read S start_scan n_scans * k).
  { subst cnt. unfold scans_read. destruct (Z.gtb_spec n_scans 0) as [Hpos | Hneg].
    - destruct (Z.ltb_spec (n_scans * k) 0); [nia |].
      rewrite Z.mul_min_distr_nonneg_r by lia. reflexivity.
    - reflexivity. }
  rewrite Hnread.
  assert (Heff : 0 <= scans_read S start_scan n_scans <= S - start_scan).
  { unfold scans_read. destruct (Z.gtb_spec n_scans 0); lia. }
  set (eff := scans_read S start_scan n_scans) in *.
  replace (Z.to_nat (hs + start_scan * k * es))
    with (Z.to_nat (start_scan * k) * Z.to_nat es + Z.to_nat hs)%nat
    by (rewrite <- Z2Nat.inj_mul, <- Z2Nat.inj_add by lia; f_equal; lia).
  rewrite <- skipn_skipn. fold k.
  replace (Z.to_nat (S * k))
    with (Z.to_nat (start_scan * k)
          + (Z.to_nat (eff * k) + Z.to_nat ((S - start_scan - eff) * k)))%nat
    by (rewrite <- !Z2Nat.inj_add by nia; f_equal; ring).
  apply group_window.
Qed.

(** A window that reaches past the last scan asks for more samples than the
    file holds from there: a count of 2^63 or more is no C integer, numpy
    refuses an array of 2^63 bytes or more, and the host one beyond its
    memory. *)
Lemma read_samples_refused (start_scan n_scans : Z) :
  0 <= start_scan <= S ->
  S - start_scan < n_scans ->
  let size := n_scans * k * (rh_bits host file / 8) in
  (2 ^ 63 <= n_scans * k ->
   read_samples host file (header_of host file) start_scan n_scans = Raise OverflowError)
  /\ (n_scans * k < 2 ^ 63 -> 2 ^ 63 <= size ->
      read_samples host file (header_of host file) start_scan n_scans = Raise ValueError)
  /\ (size < 2 ^ 63 -> memory host < size ->
      read_samples host file (header_of host file) start_scan n_scans = Raise MemoryError).
Proof.
  intros Hstart Hpast size.
  pose proof trace_len_pos as Hk.
  pose proof Hwf as (Hlen & Hns & Hnc & Hbits & Hhs & HS & Hfile).
  destruct (dtype_of_supported_bits _ Hbits) as (dt & Hdt & Hb8 & Hes).
  rewrite (read_samples_fromfile start_scan n_scans dt Hdt Hstart).
  fold k in Hfile. subst size. rewrite Hes in Hfile |- *.
  set (es := np.itemsize dt) in *.
  set (hs := header_size host file) in *.
  assert (Hespos : 0 < es) by (subst es; destruct dt; reflexivity).
  assert (Hske : 0 <= start_scan * k * es <= S * k * es) by nia.
  assert (HSk : S * (k * es) = S * k * es) by ring.
  assert (Hpos : 0 < n_scans) by lia.
  destruct (Z.gtb_spec n_scans 0); [| lia].
  assert (Hrest : len (skipn (Z.to_nat (hs + start_scan * k * es)) file) / es
                  = (S - start_scan) * k).
  { unfold len in *. rewrite length_skipn.
    replace (Z.of_nat (length file - Z.to_nat (hs + start_scan * k * es)))
      with ((S - start_scan) * k * es) by lia.
    apply Z.div_mul. lia. }
  unfold np.fromfile. cbv zeta. fold es. rewrite Hrest.
  destruct (Z.leb_spec (- 2 ^ 63) (hs + start_scan * k * es)); [| lia].
  destruct (Z.ltb_spec (hs + start_scan * k * es) (2 ^ 63)); [| lia].
  destruct (Z.leb_spec (- 2 ^ 63) (n_scans * k)); [| nia].
  cbn [andb negb].
  split; [| split].
  - intros Hbig. destruct (Z.ltb_spec (n_scans * k) (2 ^ 63)); [lia | reflexivity].
  - intros Hn Hbig.
    destruct (Z.ltb_spec (n_scans * k) (2 ^ 63)); [| lia]. cbn [andb negb].
    destruct (Z.ltb_spec (hs + start_scan * k * es) 0); [lia |].
    destruct (Z.ltb_spec (len file) (hs + start_scan * k * es)); [lia |]. cbn [andb].
    destruct (Z.ltb_spec (n_scans * k) 0); [nia |].
    destruct (Z.ltb_spec (n_scans * k) 0); [nia |].
    destruct (Z.leb_spec (2 ^ 63) (n_scans * k * es)); [reflexivity | lia].
  - intros Hfits Hmem.
    destruct (Z.ltb_spec (n_scans * k) (2 ^ 63)); [| nia]. cbn [andb negb].
    destruct (Z.ltb_spec (hs + start_scan * k * es) 0); [lia |].
    destruct (Z.ltb_spec (len file) (hs + start_scan * k * es)); [lia |]. cbn [andb].
    destruct (Z.ltb_spec (n_scans * k) 0); [nia |].
    destruct (Z.ltb_spec (n_scans * k) 0); [nia |].
    destruct (Z.leb_spec (2 ^ 63) (n_scans * k * es)); [lia |].
    destruct (Z.ltb_spec ((S - start_scan) * k) (n_scans * k)); [| nia].
    destruct (Z.ltb_spec (memory host) (n_scans * k * es)); [reflexivity | lia].
Qed.

End Window.

(** ** Building the matrix *)

Lemma reshape_exact (datvec : list Z) (k : Z) :
  0 < k -> (k | len datvec) ->
  np.reshape datvec k
  = Ok (np.mk_ndarray (len datvec / k, k)
          (group (Z.to_nat k) datvec (Z.to_nat (len datvec / k)))).
Proof.
  intros Hk Hdiv. unfold np.reshape.
  destruct (Z.ltb_spec k 0); [lia |].
  destruct (Z.eqb_spec k 0); [lia |].
  apply Z.mod_divide in Hdiv; [| lia]. rewrite Hdiv. reflexivity.
Qed.

Lemma reshape_fail (datvec : list Z) (k : Z) :
  ~ (k | len datvec) -> np.reshape datvec k = Raise ValueError.
Proof.
  intros Hndiv. unfold np.reshape.
  destruct (Z.ltb_spec k 0); [reflexivity |].
  destruct (Z.eqb_spec k 0); [reflexivity |].
  destruct (Z.eqb_spec (len datvec mod k) 0) as [Hmod | Hmod]; [| reflexivity].
  exfalso. apply Hndiv. apply Z.mod_divide; [lia | assumption].
Qed.

(** The transpose of [c] rows of length [k]: shape, rows and columns. *)
Lemma T_rows (c k : Z) (rows : list (list Z)) :
  length rows = Z.to_nat c ->
  Forall (fun row => length row = Z.to_nat k) rows ->
  let m := np.T (np.mk_ndarray (c, k) rows) in
  np.shape m = (k, c)
  /\ length (np.tolist m) = Z.to_nat k
  /\ Forall (fun row => length row = Z.to_nat c) (np.tolist m)
  /\ (forall j, (j < Z.to_nat c)%nat -> np.column m j = nth j rows []).
Proof.
  intros Hrows Hlen m. repeat split.
  - unfold m, np.T. cbn [np.shape np.tolist]. rewrite length_map, length_seq. reflexivity.
  - unfold m, np.T. cbn [np.shape np.tolist]. apply Forall_forall.
    intros row Hin. apply in_map_iff in Hin. destruct Hin as (r & <- & _).
    rewrite length_map. assumption.
  - intros j Hj. unfold m. rewrite column_T.
    assert (Hnth : length (nth j rows []) = Z.to_nat k).
    { rewrite Forall_forall in Hlen. apply Hlen. apply nth_In. lia. }
    rewrite <- Hnth. apply map_nth_seq.
Qed.

Section Matrix.

Variables (host : machine) (file : list byte).

Let info := header_of host file.
Let k := trace_len host file.

Lemma build_matrix_exact (datvec : list Z) :
  0 < k -> (k | len datvec) ->
  build_matrix info datvec
  = Ok (np.T (np.mk_ndarray (len datvec / k, k)
                (group (Z.to_nat k) datvec (Z.to_nat (len datvec / k))))).
Proof.
  intros Hk Hdiv. unfold info. rewrite build_matrix_header. fold k.
  rewrite reshape_exact by assumption. reflexivity.
Qed.

Lemma build_matrix_fail (datvec : list Z) :
  ~ (k | len datvec) -> build_matrix info datvec = Raise ValueError.
Proof.
  intros Hndiv. unfold info. rewrite build_matrix_header. fold k.
  rewrite reshape_fail by assumption. reflexivity.
Qed.

End Matrix.

Lemma group_exact_lengths (datvec : list Z) (k : Z) :
  0 < k -> (k | len datvec) ->
  Forall (fun row => length row = Z.to_nat k)
         (group (Z.to_nat k) datvec (Z.to_nat (len datvec / k))).
Proof.
  intros Hk [c Hc]. apply Forall_length_group.
  rewrite Hc, Z.div_mul by lia.
  assert (0 <= c) by (unfold len in Hc; nia).
  rewrite <- Z2Nat.inj_mul by lia. unfold len in Hc. lia.
Qed.

(** ** Windows of scans *)

Section Scans.

Variables (host : machine) (file : list byte) (S : Z).
Hypothesis Hwf : well_formed host file S.
Hypothesis Hsize : len file < 2 ^ 50.

Let k := trace_len host file.

Lemma length_payload_samples :
  length (payload_samples host file S) = Z.to_nat (S * k).
Proof.
  destruct Hwf as (_ & _ & _ & Hbits & _).
  destruct (dtype_of_supported_bits _ Hbits) as (dt & Hdt & _).
  unfold payload_samples. rewrite Hdt, length_map, length_group. reflexivity.
Qed.

Lemma length_scans : length (scans host file S) = Z.to_nat S.
Proof. unfold scans. apply length_group. Qed.

Lemma Forall_length_scans :
  Forall (fun row => length row = Z.to_nat k) (scans host file S).
Proof.
  pose proof (trace_len_pos host file S Hwf) as Hk. fold k in Hk.
  destruct Hwf as (_ & _ & _ & _ & _ & HS & _).
  unfold scans. apply Forall_length_group.
  rewrite length_payload_samples, Z2Nat.inj_mul by lia. fold k. lia.
Qed.

(** The matrix of a window is the transpose of the scans it covers. *)
Lemma readdzt_window (start_scan n_scans : Z) :
  0 <= start_scan <= S ->
  n_scans <= S - start_scan
  \/ (n_scans * k * (rh_bits host file / 8) < 2 ^ 63
      /\ n_scans * k * (rh_bits host file / 8) <= memory host) ->
  readdzt host file start_scan n_scans
  = Ok (np.T (np.mk_ndarray (scans_read S start_scan n_scans, k)
                (firstn (Z.to_nat (scans_read S start_scan n_scans))
                        (skipn (Z.to_nat start_scan) (scans host file S)))),
        header_of host file).
Proof.
  intros Hstart Hn.
  pose proof (trace_len_pos host file S Hwf) as Hk. fold k in Hk.
  pose proof length_payload_samples as Hfull.
  assert (Heff : 0 <= scans_read S start_scan n_scans <= S - start_scan).
  { unfold scans_read. destruct (Z.gtb_spec n_scans 0); lia. }
  rewrite readdzt_header by (destruct Hwf; assumption).
  rewrite (read_samples_window host file S Hwf Hsize) by assumption.
  fold k. cbn [bind].
  set (eff := scans_read S start_scan n_scans) in *.
  set (full := payload_samples host file S) in *.
  set (datvec := firstn (Z.to_nat (eff * k)) (skipn (Z.to_nat (start_scan * k)) full)).
  assert (Hlen : len datvec = eff * k).
  { unfold len, datvec. rewrite length_firstn, length_skipn, Hfull.
    rewrite Nat.min_l; [nia |]. nia. }
  rewrite build_matrix_exact; fold k;
    [| assumption | exists eff; assumption].
  cbn [bind]. rewrite Hlen, Z.div_mul by lia. do 3 f_equal.
  unfold datvec, scans. fold k. fold full.
  rewrite !Z2Nat.inj_mul by lia.
  rewrite group_firstn.
  replace (Z.to_nat S)
    with (Z.to_nat start_scan
          + (Z.to_nat eff + Z.to_nat (S - start_scan - eff)))%nat by lia.
  f_equal. apply group_window.
Qed.

(** A window that reaches past the last scan and asks for more than can be
    had raises the error of [np.fromfile]. *)
Lemma readdzt_refused (start_scan n_scans : Z) :
  0 <= start_scan <= S ->
  S - start_scan < n_scans ->
  let size := n_scans * k * (rh_bits host file / 8) in
  (2 ^ 63 <= n_scans * k ->
   readdzt host file start_scan n_scans = Raise OverflowError)
  /\ (n_scans * k < 2 ^ 63 -> 2 ^ 63 <= size ->
      readdzt host file start_scan n_scans = Raise ValueError)
  /\ (size < 2 ^ 63 -> memory host < size ->
      readdzt host file start_scan n_scans = Raise MemoryError).
Proof.
  intros Hstart Hpast size.
  destruct (read_samples_refused host file S Hwf Hsize start_scan n_scans Hstart Hpast)
    as (HO & HV & HM).
  rewrite readdzt_header by (destruct Hwf; assumption).
  fold k in HO, HV, HM.
  split; [| split].
  - intros Hbig. rewrite HO by assumption. reflexivity.
  - intros Hn Hbig. rewrite HV by assumption. reflexivity.
  - intros Hfits Hmem. rewrite HM by assumption. reflexivity.
Qed.

End Scans.

Lemma Forall_window {A} (P : A -> Prop) (l : list A) (m n : nat) :
  Forall P l -> Forall P (firstn n (skipn m l)).
Proof.
  intros H. rewrite <- (firstn_skipn m l) in H.
  apply Forall_app in H. destruct H as [_ H].
  rewrite <- (firstn_skipn n (skipn m l)) in H.
  apply Forall_app in H. destruct H as [H _]. exact H.
Qed.

Lemma nth_window {A} (l : list A) (m n j : nat) (d : A) :
  (j < n)%nat -> nth j (firstn n (skipn m l)) d = nth (m + j) l d.
Proof.
  intros Hj. rewrite nth_firstn.
  destruct (Nat.ltb_spec j n); [apply nth_skipn | lia].
Qed.

Section WindowMatrix.

Variables (host : machine) (file : list byte) (S : Z).
Hypothesis Hwf : well_formed host file S.
Hypothesis Hsize : len file < 2 ^ 50.

Let k := trace_len host file.

(** The matrix [readdzt_window] returns, read by columns and by entries. *)
Lemma window_matrix (start_scan n : Z) :
  0 <= start_scan -> 0 <= n <= S - start_scan ->
  let m := np.T (np.mk_ndarray (n, k)
                   (firstn (Z.to_nat n) (skipn (Z.to_nat start_scan) (scans host file S)))) in
  np.shape m = (k, n)
  /\ length (np.tolist m) = Z.to_nat k
  /\ Forall (fun row => length row = Z.to_nat n) (np.tolist m)
  /\ (forall j, (j < Z.to_nat n)%nat ->
        np.column m j = nth (Z.to_nat start_scan + j) (scans host file S) [])
  /\ (forall i j, (j < Z.to_nat n)%nat ->
        np.get m i j
        = if (i <? Z.to_nat k)%nat
          then nth i (nth (Z.to_nat start_scan + j) (scans host file S) []) 0
          else 0).
Proof.
  intros Hstart Hn m.
  pose proof (length_scans host file S) as Hlen.
  pose proof (Forall_length_scans host file S Hwf) as Hall. fold k in Hall.
  destruct (T_rows n k (firstn (Z.to_nat n) (skipn (Z.to_nat start_scan) (scans host file S))))
    as (Hshape & Hrows & Hcols & Hcol).
  - rewrite length_firstn, length_skipn, Hlen. lia.
  - apply Forall_window. assumption.
  - fold m in Hshape, Hrows, Hcols, Hcol.
    repeat split; try assumption.
    + intros j Hj. rewrite Hcol by assumption. apply nth_window; assumption.
    + intros i j Hj. unfold m. rewrite get_T, nth_window by assumption. reflexivity.
Qed.

Lemma start_offset_wf (start_scan : Z) :
  0 <= start_scan <= S ->
  start_offset (header_of host file) start_scan
  = Ok (start_scan * rh_nchan host file * rh_nsamp host file * (rh_bits host file / 8)).
Proof.
  intros Hstart.
  pose proof (trace_len_pos host file S Hwf) as Hk. fold k in Hk.
  destruct Hwf as (_ & Hns & Hnc & Hbits & Hhs & HS & Hfile).
  destruct (dtype_of_supported_bits _ Hbits) as (dt & _ & Hb8 & Hes).
  fold k in Hfile. rewrite Hes in *.
  set (es := np.itemsize dt) in *.
  assert (Hespos : 0 < es) by (subst es; destruct dt; reflexivity).
  assert (Hske : 0 <= start_scan * k * es <= S * k * es) by nia.
  assert (HP : start_scan * rh_nchan host file * rh_nsamp host file * rh_bits host file
               = start_scan * rh_nchan host file * rh_nsamp host file * es * 8)
    by (rewrite Hb8; ring).
  assert (HQ : start_scan * rh_nchan host file * rh_nsamp host file * es
               = start_scan * k * es) by (unfold k, trace_len; ring).
  rewrite start_offset_exact.
  - rewrite HP, Z.quot_mul by lia. reflexivity.
  - rewrite HP, HQ, Z.abs_eq by lia. lia.
Qed.

End WindowMatrix.

(** * Properties of the decoder *)

(** ** Offset resolution *)

(** C2 (offset resolution).  For every decoded header, [head_offset] is
    [1024 * rh_data] when [rh_data < 1024] and [1024 * rh_nchan] otherwise: so
    [rh_data = 200], [rh_nchan = 3] gives [1024 * 200] and [rh_data = 1024],
    [rh_nchan = 3] gives [1024 * 3]; two decoded headers with the same
    [rh_data] and [rh_nchan] have the same [head_offset], whatever their
    other fields. *)
Theorem offset_resolution (host : machine) (file : list byte) (info : dict) :
  with_open file (read_header host) = Ok info ->
  exists d c : Z,
    getint info "rh_data" = Ok d
    /\ getint info "rh_nchan" = Ok c
    /\ head_offset info = Ok (if d <? 1024 then 1024 * d else 1024 * c)
    /\ (d = 200 -> c = 3 -> head_offset info = Ok (1024 * 200))
    /\ (d = 1024 -> c = 3 -> head_offset info = Ok (1024 * 3))
    /\ (forall host' file' info',
          with_open file' (read_header host') = Ok info' ->
          getint info' "rh_data" = Ok d ->
          getint info' "rh_nchan" = Ok c ->
          head_offset info' = head_offset info).
Proof.
  intros H. apply read_header_inv in H. destruct H as [_ ->].
  exists (rh_data host file), (rh_nchan host file).
  assert (Hho : head_offset (header_of host file)
                = Ok (if rh_data host file <? 1024 then 1024 * rh_data host file
                      else 1024 * rh_nchan host file))
    by (rewrite head_offset_header; reflexivity).
  repeat split.
  - exact Hho.
  - intros Hd Hc. rewrite Hho, Hd. reflexivity.
  - intros Hd Hc. rewrite Hho, Hd, Hc. reflexivity.
  - intros host' file' info' H' Hd Hc.
    apply read_header_inv in H'. destruct H' as [_ ->].
    destruct (getint_header host' file') as (Hd' & _ & _ & Hc').
    rewrite Hd' in Hd. rewrite Hc' in Hc.
    injection Hd as Hd. injection Hc as Hc.
    rewrite Hho, head_offset_header. unfold header_size.
    change (rh_data host' file') with (int16_at host' file' 2).
    change (rh_nchan host' file') with (int16_at host' file' 52).
    rewrite Hd, Hc. reflexivity.
Qed.

(** ** Sign recentring *)

Lemma wrap_int32_small (z : Z) : - 2 ^ 31 <= z < 2 ^ 31 -> wrap_int32 z = z.
Proof.
  intros Hz. unfold wrap_int32, signed. change (32 - 1) with 31.
  destruct (Z.ltb_spec (z mod 2 ^ 32) (2 ^ 31)); Z.div_mod_to_equations; lia.
Qed.

Lemma recentre_value_unsigned (bits v : Z) :
  bits = 8 \/ bits = 16 -> 0 <= v < 2 ^ bits ->
  recentre_value bits v = v - 2 ^ (bits - 1).
Proof.
  intros [-> | ->] Hv; unfold recentre_value; cbn [Z.eqb Pos.eqb orb];
    rewrite (wrap_int32_small v), wrap_int32_small;
    change (2 ^ 8 / 2) with 128; change (2 ^ (8 - 1)) with 128;
    change (2 ^ 16 / 2) with 32768; change (2 ^ (16 - 1)) with 32768; lia.
Qed.

(** The samples [np.fromfile] returns for the unsigned types are in the range
    of their width. *)
Lemma item_unsigned_range (host : machine) (dt : np.dtype) (bs : list byte) :
  dt = np.uint8 \/ dt = np.uint16 ->
  length bs = Z.to_nat (np.itemsize dt) ->
  0 <= np.item host dt bs < 2 ^ (8 * np.itemsize dt).
Proof.
  intros [-> | ->] Hlen; cbn [np.item np.itemsize] in *.
  - pose proof (le_combine_bound bs) as Hb. rewrite Hlen in Hb. exact Hb.
  - pose proof (le_combine_bound (native host bs)) as Hb.
    replace (length (native host bs)) with (length bs) in Hb
      by (unfold native; destruct (order host); [reflexivity | symmetry; apply length_rev]).
    rewrite Hlen in Hb. exact Hb.
Qed.

Lemma fromfile_unsigned_range (host : machine) (file : list byte) (dt : np.dtype)
      (offset count : Z) (raw : list Z) :
  dt = np.uint8 \/ dt = np.uint16 ->
  np.fromfile host file dt offset count = Ok raw ->
  Forall (fun v => 0 <= v < 2 ^ (8 * np.itemsize dt)) raw.
Proof.
  intros Hdt. unfold np.fromfile.
  assert (Hes : 0 < np.itemsize dt) by (destruct dt; reflexivity).
  destruct (negb _); [discriminate |].
  destruct (offset <? 0); [discriminate |].
  destruct ((len file <? offset) && _); [discriminate |].
  set (num := if count <? 0 then Z.quot (len file - offset) (np.itemsize dt) else count).
  destruct (Z.ltb_spec num 0) as [| Hnum]; [discriminate |].
  destruct (2 ^ 63 <=? _); [discriminate |].
  set (rest := skipn (Z.to_nat offset) file).
  destruct ((len rest / _ <? num) && _); [discriminate |].
  intros H. injection H as <-.
  apply Forall_map.
  assert (Hfit : (Z.to_nat (Z.min num (len rest / np.itemsize dt))
                  * Z.to_nat (np.itemsize dt) <= length rest)%nat).
  { pose proof (Z.mul_div_le (len rest) (np.itemsize dt) Hes) as Hle.
    assert (0 <= len rest / np.itemsize dt) by (apply Z.div_pos; unfold len; lia).
    rewrite <- Z2Nat.inj_mul by lia. unfold len in *. nia. }
  apply (Forall_impl _ (P := fun g => length g = Z.to_nat (np.itemsize dt))).
  - intros bs Hbs. apply item_unsigned_range; assumption.
  - apply Forall_length_group. exact Hfit.
Qed.

(** C3 (sign recentring).  With [rh_bits] 8 or 16, every raw unsigned sample
    [v] becomes [v - 2^(rh_bits - 1)]: 0 and 255 become -128 and 127, 0 and
    65535 become -32768 and 32767.  With [rh_bits] 32 the samples are left as
    they are.  The samples [np.fromfile] returns for the selected type are
    always in the unsigned range, so this is what happens to every sample
    read. *)
Theorem sign_recentring (info : dict) (bits : Z) (datvec : list Z) :
  getint info "rh_bits" = Ok bits ->
  (bits = 8 \/ bits = 16 ->
   Forall (fun v => 0 <= v < 2 ^ bits) datvec ->
   recentre info datvec = Ok (map (fun v => v - 2 ^ (bits - 1)) datvec))
  /\ (bits = 8 -> recentre info [0; 255] = Ok [-128; 127])
  /\ (bits = 16 -> recentre info [0; 65535] = Ok [-32768; 32767])
  /\ (bits = 32 -> recentre info datvec = Ok datvec)
  /\ (forall host file dt offset count raw,
        bits = 8 \/ bits = 16 ->
        select_datatype info = Ok (Some dt) ->
        np.fromfile host file dt offset count = Ok raw ->
        recentre info raw = Ok (map (fun v => v - 2 ^ (bits - 1)) raw)).
Proof.
  intros Hbits.
  assert (Hre : forall l, recentre info l = Ok (map (recentre_value bits) l)).
  { intros l. unfold recentre, recentre_value. rewrite Hbits. cbn [bind].
    destruct (bits =? 8); cbn [bind orb]; [reflexivity |].
    destruct (bits =? 16); [reflexivity |]. rewrite map_id. reflexivity. }
  assert (Hunsigned : forall l, bits = 8 \/ bits = 16 ->
            Forall (fun v => 0 <= v < 2 ^ bits) l ->
            recentre info l = Ok (map (fun v => v - 2 ^ (bits - 1)) l)).
  { intros l Hb Hall. rewrite Hre. f_equal. apply map_ext_in.
    intros v Hin. apply recentre_value_unsigned; [assumption |].
    rewrite Forall_forall in Hall. apply Hall. assumption. }
  split; [apply Hunsigned |].
  split; [intros ->; rewrite Hre; reflexivity |].
  split; [intros ->; rewrite Hre; reflexivity |].
  split.
  - intros ->. rewrite Hre. cbn [recentre_value Z.eqb Pos.eqb orb].
    rewrite map_id. reflexivity.
  - intros host file dt offset count raw Hb Hsel Hraw.
    apply Hunsigned; [assumption |].
    assert (Hdt : (dt = np.uint8 \/ dt = np.uint16) /\ bits = 8 * np.itemsize dt).
    { unfold select_datatype in Hsel. rewrite Hbits in Hsel. cbn [bind] in Hsel.
      destruct Hb as [-> | ->]; cbn [Z.eqb Pos.eqb] in Hsel;
        injection Hsel as <-; split; auto. }
    destruct Hdt as [Hdt ->].
    apply (fromfile_unsigned_range host file dt offset count); assumption.
Qed.

(** ** Unsupported sample widths *)

Lemma start_offset_cases (info : dict) (start_scan : Z) :
  (exists z, start_offset info start_scan = Ok z)
  \/ start_offset info start_scan = Raise (NameError "warnings").
Proof.
  unfold start_offset.
  match goal with
  | |- context [try_except ?body _] => destruct body as [z | e]
  end.
  - left. exists z. reflexivity.
  - right. reflexivity.
Qed.

Lemma count_ok (host : machine) (file : list byte) (n_scans : Z) :
  exists c, count (header_of host file) n_scans = Ok c.
Proof. rewrite count_header. eexists. reflexivity. Qed.

(** C9 (unsupported sample width).  When the decoded [rh_bits] is none of 8,
    16 and 32, no sample type is bound and decoding fails before a single
    sample is read: the call raises on the use of the unbound [datatype] (or
    earlier, if the start offset cannot be computed); no matrix is
    returned. *)
Theorem unsupported_sample_width (host : machine) (file : list byte)
        (start_scan n_scans : Z) :
  (54 <= length file)%nat ->
  rh_bits host file <> 8 -> rh_bits host file <> 16 -> rh_bits host file <> 32 ->
  (readdzt host file start_scan n_scans = Raise (UnboundLocalError "datatype")
   \/ readdzt host file start_scan n_scans = Raise (NameError "warnings"))
  /\ (Z.abs (start_scan * rh_nchan host file * rh_nsamp host file * rh_bits host file) < 2 ^ 53 ->
      readdzt host file start_scan n_scans = Raise (UnboundLocalError "datatype")).
Proof.
  intros Hlen H8 H16 H32.
  assert (Hdt : dtype_of_bits (rh_bits host file) = None).
  { unfold dtype_of_bits.
    destruct (Z.eqb_spec (rh_bits host file) 8); [contradiction |].
    destruct (Z.eqb_spec (rh_bits host file) 16); [contradiction |].
    destruct (Z.eqb_spec (rh_bits host file) 32); [contradiction | reflexivity]. }
  rewrite readdzt_header by assumption. unfold read_samples.
  rewrite select_datatype_header, head_offset_header, Hdt. cbn [bind].
  destruct (count_ok host file n_scans) as [c Hc].
  split.
  - destruct (start_offset_cases (header_of host file) start_scan) as [[z Hz] | Hz];
      rewrite Hz; cbn [bind].
    + rewrite Hc. left. reflexivity.
    + right. reflexivity.
  - intros Hsmall. rewrite start_offset_exact by assumption. cbn [bind].
    rewrite Hc. reflexivity.
Qed.

(** ** Matrix shape and incomplete traces *)

(** C4 (matrix shape and orientation).  When the number [N] of decoded
    samples is a multiple of the trace length
    [k = rh_nsamp * rh_nchan > 0], the call returns a matrix of [k] rows and
    [N / k] columns whose column [i] is the [i]-th block of [k] samples of
    the stream; with [rh_nsamp = 512], [rh_nchan = 2] and [512 * 2 * 10]
    samples the shape is (1024, 10). *)
Theorem matrix_shape_orientation (host : machine) (file : list byte)
        (start_scan n_scans : Z) (datvec : list Z) :
  (54 <= length file)%nat ->
  read_samples host file (header_of host file) start_scan n_scans = Ok datvec ->
  0 < trace_len host file ->
  (trace_len host file | len datvec) ->
  exists data : np.ndarray,
    readdzt host file start_scan n_scans = Ok (data, header_of host file)
    /\ np.shape data = (trace_len host file, len datvec / trace_len host file)
    /\ length (np.tolist data) = Z.to_nat (trace_len host file)
    /\ Forall (fun row => length row = Z.to_nat (len datvec / trace_len host file))
              (np.tolist data)
    /\ (forall i, (i < Z.to_nat (len datvec / trace_len host file))%nat ->
          np.column data i
          = firstn (Z.to_nat (trace_len host file))
                   (skipn (i * Z.to_nat (trace_len host file)) datvec))
    /\ (rh_nsamp host file = 512 -> rh_nchan host file = 2 ->
        len datvec = 512 * 2 * 10 -> np.shape data = (1024, 10)).
Proof.
  intros Hlen Hread Hk Hdiv.
  assert (Hex : rh_nsamp host file = 512 -> rh_nchan host file = 2 ->
                len datvec = 512 * 2 * 10 ->
                (trace_len host file, len datvec / trace_len host file) = (1024, 10))
    by (unfold trace_len; intros -> -> ->; reflexivity).
  set (k := trace_len host file) in *.
  rewrite readdzt_header, Hread by assumption. cbn [bind].
  rewrite build_matrix_exact by assumption. fold k. cbn [bind].
  eexists. split; [reflexivity |].
  destruct (T_rows (len datvec / k) k
              (group (Z.to_nat k) datvec (Z.to_nat (len datvec / k))))
    as (Hshape & Hrows & Hcols & Hcol).
  - apply length_group.
  - apply group_exact_lengths; assumption.
  - split; [exact Hshape |]. split; [exact Hrows |]. split; [exact Hcols |].
    split.
    + intros i Hi. rewrite Hcol by assumption. apply nth_group. assumption.
    + intros Hs Hc HN. rewrite Hshape. apply Hex; assumption.
Qed.

(** C7 (incomplete trace).  When the number of decoded samples is not a
    whole multiple of the trace length [rh_nsamp * rh_nchan], the reshape
    raises ValueError and no matrix is returned; so it is with
    [rh_nsamp = 512], [rh_nchan = 2] and [512 * 2 * 10 + 1] samples. *)
Theorem incomplete_trace (host : machine) (file : list byte)
        (start_scan n_scans : Z) (datvec : list Z) :
  (54 <= length file)%nat ->
  read_samples host file (header_of host file) start_scan n_scans = Ok datvec ->
  (~ (trace_len host file | len datvec) ->
   readdzt host file start_scan n_scans = Raise ValueError)
  /\ (rh_nsamp host file = 512 -> rh_nchan host file = 2 ->
      len datvec = 512 * 2 * 10 + 1 ->
      readdzt host file start_scan n_scans = Raise ValueError).
Proof.
  intros Hlen Hread.
  assert (Hfail : ~ (trace_len host file | len datvec) ->
                  readdzt host file start_scan n_scans = Raise ValueError).
  { intros Hndiv. rewrite readdzt_header, Hread by assumption. cbn [bind].
    rewrite build_matrix_fail by assumption. reflexivity. }
  split; [exact Hfail |].
  intros Hs Hc HN. apply Hfail. unfold trace_len. rewrite Hs, Hc, HN.
  intros [c Hdiv]. lia.
Qed.

(** ** Scan windows *)

(** C5 (scan windowing).  On a well-formed file of [S] scans (smaller than
    2^50 bytes, where the float division of the start offset is exact), a
    window [0 <= start_scan], [0 < n_scans], [start_scan + n_scans <= S]
    skips [start_scan * rh_nchan * rh_nsamp * (rh_bits / 8)] bytes after the
    header, asks for and reads [n_scans * rh_nsamp * rh_nchan] samples, and
    returns the same header mapping as the full decode with a matrix of
    [n_scans] columns equal, entry by entry, to columns [start_scan] to
    [start_scan + n_scans - 1] of the full decode. *)
Theorem scan_windowing (host : machine) (file : list byte) (S start_scan n_scans : Z) :
  well_formed host file S ->
  len file < 2 ^ 50 ->
  0 <= start_scan -> 0 < n_scans -> start_scan + n_scans <= S ->
  let info := header_of host file in
  let k := trace_len host file in
  start_offset info start_scan
  = Ok (start_scan * rh_nchan host file * rh_nsamp host file * (rh_bits host file / 8))
  /\ count info n_scans = Ok (n_scans * rh_nsamp host file * rh_nchan host file)
  /\ (exists datvec : list Z,
        read_samples host file info start_scan n_scans = Ok datvec
        /\ len datvec = n_scans * rh_nsamp host file * rh_nchan host file)
  /\ (exists full win : np.ndarray,
        readdzt host file 0 (-1) = Ok (full, info)
        /\ readdzt host file start_scan n_scans = Ok (win, info)
        /\ np.shape full = (k, S)
        /\ np.shape win = (k, n_scans)
        /\ Forall (fun row => length row = Z.to_nat n_scans) (np.tolist win)
        /\ (forall j, (j < Z.to_nat n_scans)%nat ->
              np.column win j = np.column full (Z.to_nat start_scan + j))
        /\ (forall i j, (j < Z.to_nat n_scans)%nat ->
              np.get win i j = np.get full i (Z.to_nat start_scan + j))).
Proof.
  intros Hwf Hsize Hstart Hn Hend info k.
  pose proof (trace_len_pos host file S Hwf) as Hk. fold k in Hk.
  assert (HS : 0 <= S) by lia.
  assert (Hwin : scans_read S start_scan n_scans = n_scans).
  { unfold scans_read. destruct (Z.gtb_spec n_scans 0); lia. }
  assert (Hall : scans_read S 0 (-1) = S) by (unfold scans_read; cbn; lia).
  split; [apply (start_offset_wf host file S Hwf Hsize); lia |].
  split.
  { unfold info. rewrite count_header.
    destruct (Z.gtb_spec n_scans 0); [reflexivity | lia]. }
  split.
  { eexists. split.
    - unfold info. apply (read_samples_window host file S Hwf Hsize); [lia | left; lia].
    - rewrite Hwin. unfold len.
      rewrite length_firstn, length_skipn, (length_payload_samples host file S Hwf).
      fold k. replace (n_scans * rh_nsamp host file * rh_nchan host file)
        with (n_scans * k) by (unfold k, trace_len; ring).
      rewrite Nat.min_l; nia. }
  pose proof (readdzt_window host file S Hwf Hsize 0 (-1)) as Hfull.
  pose proof (readdzt_window host file S Hwf Hsize start_scan n_scans) as Hw.
  fold k in Hfull, Hw. rewrite Hall in Hfull. rewrite Hwin in Hw.
  destruct (window_matrix host file S Hwf 0 S) as (Hs1 & _ & _ & Hc1 & Hg1); [lia | lia |].
  destruct (window_matrix host file S Hwf start_scan n_scans)
    as (Hs2 & _ & Hr2 & Hc2 & Hg2); [lia | lia |].
  fold k in Hs1, Hc1, Hg1, Hs2, Hr2, Hc2, Hg2.
  eexists. eexists.
  split; [apply Hfull; [lia | left; lia] |].
  split; [apply Hw; [lia | left; lia] |].
  split; [exact Hs1 |]. split; [exact Hs2 |]. split; [exact Hr2 |].
  split.
  - intros j Hj. rewrite Hc2 by assumption. rewrite Hc1 by lia. reflexivity.
  - intros i j Hj. rewrite Hg2 by assumption. rewrite Hg1 by lia. reflexivity.
Qed.

(** C8, as the code has it (the claim as stated fails, see
    [offset_out_of_range_counterexample]).  On a well-formed file of [S]
    scans (smaller than 2^50 bytes) and for [0 <= start_scan <= S], let
    [size] be the bytes of the [n_scans] scans asked for.  Every
    [n_scans <= 0], not only -1, reads all the [S - start_scan] scans that
    remain.  A positive [n_scans] that ends inside the file, or whose array
    of [size] bytes is below 2^63 bytes and granted by the host, raises no
    error and is cut to the [min n_scans (S - start_scan)] scans that are
    there.  A window that reaches past the last scan and asks for more
    raises: [OverflowError] when the sample count is 2^63 or more,
    [ValueError] when [size] is, and [MemoryError] when [size] is beyond the
    memory of the host. *)
Theorem window_is_clamped (host : machine) (file : list byte) (S start_scan n_scans : Z) :
  well_formed host file S ->
  len file < 2 ^ 50 ->
  0 <= start_scan <= S ->
  let size := n_scans * trace_len host file * (rh_bits host file / 8) in
  let cols := if n_scans >? 0 then Z.min n_scans (S - start_scan) else S - start_scan in
  (n_scans <= S - start_scan \/ (size < 2 ^ 63 /\ size <= memory host) ->
   exists data : np.ndarray,
     readdzt host file start_scan n_scans = Ok (data, header_of host file)
     /\ np.shape data = (trace_len host file, cols)
     /\ (forall j, (j < Z.to_nat cols)%nat ->
           np.column data j = nth (Z.to_nat start_scan + j) (scans host file S) []))
  /\ (n_scans <= 0 ->
      readdzt host file start_scan n_scans = readdzt host file start_scan (-1))
  /\ (S - start_scan < n_scans ->
      (2 ^ 63 <= n_scans * trace_len host file ->
       readdzt host file start_scan n_scans = Raise OverflowError)
      /\ (n_scans * trace_len host file < 2 ^ 63 -> 2 ^ 63 <= size ->
          readdzt host file start_scan n_scans = Raise ValueError)
      /\ (size < 2 ^ 63 -> memory host < size ->
          readdzt host file start_scan n_scans = Raise MemoryError)).
Proof.
  intros Hwf Hsize Hstart size cols.
  pose proof (trace_len_pos host file S Hwf) as Hk.
  assert (Hcols : 0 <= cols <= S - start_scan).
  { unfold cols. destruct (Z.gtb_spec n_scans 0); lia. }
  split; [| split].
  - intros Hn.
    destruct (window_matrix host file S Hwf start_scan cols)
      as (Hs & _ & _ & Hc & _); [lia | lia |].
    eexists. split; [| split; [exact Hs | exact Hc]].
    apply (readdzt_window host file S Hwf Hsize); assumption.
  - intros Hneg.
    rewrite !(readdzt_window host file S Hwf Hsize) by (try assumption; left; lia).
    unfold scans_read. destruct (Z.gtb_spec n_scans 0); [lia | reflexivity].
  - intros Hpast.
    exact (readdzt_refused host file S Hwf Hsize start_scan n_scans Hstart Hpast).
Qed.

(** ** The end-to-end scenario *)

(** The fields of the header do not depend on what follows the header. *)
Lemma int16_at_app (host : machine) (hdr rest : list byte) (off : nat) :
  (off + 2 <= length hdr)%nat ->
  int16_at host (hdr ++ rest) off = int16_at host hdr off.
Proof.
  intros H. unfold int16_at, slice.
  rewrite skipn_app, firstn_app, length_skipn.
  replace (2 - (length hdr - off))%nat with 0%nat by lia.
  cbn [firstn]. rewrite app_nil_r. reflexivity.
Qed.

Lemma words_32768_native_little (host : machine) :
  order host = LittleEndian -> words_32768_native host = words_32768.
Proof.
  intros H. unfold words_32768_native. rewrite native_little by assumption.
  reflexivity.
Qed.

(** C6, as the code has it (the claim as stated fails on a big-endian host,
    see [end_to_end_big_endian_counterexample]).  On every host, a 1024-byte
    header that holds [rh_data = 1024], [rh_nsamp = 256], [rh_bits = 16] and
    [rh_nchan = 1] at their offsets in the byte order of the host, followed
    by [256 * 5] words [32768] in the byte order of the host, decodes (with
    the default [start_scan = 0], [n_scans = -1]) to a 256 x 5 matrix of
    zeros and a header mapping whose [rh_nsamp] is 256; on a little-endian
    host these are the little-endian words of the claim. *)
Theorem end_to_end_scenario (host : machine) (hdr : list byte) :
  length hdr = 1024%nat ->
  rh_data host hdr = 1024 ->
  rh_nsamp host hdr = 256 ->
  rh_bits host hdr = 16 ->
  rh_nchan host hdr = 1 ->
  (exists info : dict,
     readdzt host (hdr ++ words_32768_native host) 0 (-1)
     = Ok (np.mk_ndarray (256, 5) (repeat (repeat 0 5) 256), info)
     /\ getitem info "rh_nsamp" = Ok (PyInt 256))
  /\ (order host = LittleEndian ->
      exists info : dict,
        readdzt host (hdr ++ words_32768) 0 (-1)
        = Ok (np.mk_ndarray (256, 5) (repeat (repeat 0 5) 256), info)
        /\ getitem info "rh_nsamp" = Ok (PyInt 256)).
Proof.
  intros Hlen Hdata Hnsamp Hbits Hnchan.
  assert (Hgen : exists info : dict,
             readdzt host (hdr ++ words_32768_native host) 0 (-1)
             = Ok (np.mk_ndarray (256, 5) (repeat (repeat 0 5) 256), info)
             /\ getitem info "rh_nsamp" = Ok (PyInt 256)).
  { set (file := hdr ++ words_32768_native host).
    assert (Hwords : length (words_32768_native host) = 2560%nat).
    { unfold words_32768_native, native. destruct (order host); reflexivity. }
    assert (Hd : rh_data host file = 1024)
      by (unfold rh_data, file; rewrite int16_at_app by lia; exact Hdata).
    assert (Hs : rh_nsamp host file = 256)
      by (unfold rh_nsamp, file; rewrite int16_at_app by lia; exact Hnsamp).
    assert (Hb : rh_bits host file = 16)
      by (unfold rh_bits, file; rewrite int16_at_app by lia; exact Hbits).
    assert (Hc : rh_nchan host file = 1)
      by (unfold rh_nchan, file; rewrite int16_at_app by lia; exact Hnchan).
    assert (Hk : trace_len host file = 256)
      by (unfold trace_len; rewrite Hs, Hc; reflexivity).
    assert (Hh : header_size host file = 1024)
      by (unfold header_size; rewrite Hd, Hc; reflexivity).
    assert (Hfile : len file = 3584)
      by (unfold len, file; rewrite length_app, Hlen, Hwords; reflexivity).
    assert (Hwf : well_formed host file 5).
    { unfold well_formed. rewrite Hs, Hc, Hb, Hk, Hh, Hfile.
      unfold len in Hfile. repeat split; try lia. }
    assert (Hscans : scans host file 5 = repeat (repeat 0 256) 5).
    { unfold scans, payload_samples. rewrite Hb, Hk, Hh.
      cbn [dtype_of_bits Z.eqb Pos.eqb].
      replace (skipn (Z.to_nat 1024) file) with (words_32768_native host).
      - unfold words_32768_native, np.item, native.
        destruct (order host); vm_compute; reflexivity.
      - unfold file.
        replace (Z.to_nat 1024) with (length hdr) by (rewrite Hlen; reflexivity).
        rewrite skipn_app, skipn_all, Nat.sub_diag. reflexivity. }
    exists (header_of host file). split.
    - rewrite (readdzt_window host file 5 Hwf) by (rewrite ?Hk, ?Hfile; lia).
      rewrite Hk, Hscans. do 2 f_equal.
    - cbn [header_of getitem String.eqb Ascii.eqb Bool.eqb].
      fold (rh_nsamp host file). rewrite Hs. reflexivity. }
  split; [exact Hgen |].
  intros Hle. rewrite <- (words_32768_native_little host Hle). exact Hgen.
Qed.

(** * The properties on sample files *)

Lemma header_field_fidelity_witness :
  (54 <= length (sample_header_native big_endian_host 1024 256 16 1 60))%nat
  /\ with_open (sample_header_native big_endian_host 1024 256 16 1 60)
       (read_header big_endian_host)
     = Ok (dict_of_values (sample_values 1024 256 16 1))
  /\ with_open (sample_header 1024 256 16 1 60) (read_header little_endian_host)
     = Ok (dict_of_values (sample_values 1024 256 16 1)).
Proof.
  assert (H : (54 <= length (sample_header_native big_endian_host 1024 256 16 1 60))%nat)
    by (apply Nat.leb_le; reflexivity).
  assert (H' : (54 <= length (sample_header 1024 256 16 1 60))%nat)
    by (apply Nat.leb_le; reflexivity).
  split; [exact H |]. split.
  - apply (proj1 (proj2 (header_field_fidelity big_endian_host
                           (sample_header_native big_endian_host 1024 256 16 1 60) H))
                 (sample_values 1024 256 16 1)).
    + reflexivity.
    + reflexivity.
  - apply (proj2 (proj2 (header_field_fidelity little_endian_host
                           (sample_header 1024 256 16 1 60) H'))
                 eq_refl (sample_values 1024 256 16 1)).
    + reflexivity.
    + reflexivity.
Defined.

(** C1 as stated fails.  The little-endian image of known values, decoded on
    a big-endian host, does not give the values back: [rh_data = 1024] is
    read as 4, [rh_nsamp = 256] as 1 and [rh_bits = 16] as 4096. *)
Lemma header_fields_big_endian_counterexample :
  (54 <= length (sample_header 1024 256 16 1 60))%nat
  /\ valid_values (sample_values 1024 256 16 1) = true
  /\ firstn 54 (sample_header 1024 256 16 1 60)
     = pack_header (sample_values 1024 256 16 1)
  /\ with_open (sample_header 1024 256 16 1 60) (read_header big_endian_host)
     <> Ok (dict_of_values (sample_values 1024 256 16 1))
  /\ (exists info : dict,
        with_open (sample_header 1024 256 16 1 60) (read_header big_endian_host) = Ok info
        /\ getitem info "rh_data" = Ok (PyInt 4)
        /\ getitem info "rh_nsamp" = Ok (PyInt 1)
        /\ getitem info "rh_bits" = Ok (PyInt 4096)).
Proof.
  split; [apply Nat.leb_le; reflexivity |].
  split; [reflexivity |].
  split; [reflexivity |].
  split.
  - vm_compute. discriminate.
  - eexists. split; [vm_compute; reflexivity |].
    split; [| split]; vm_compute; reflexivity.
Qed.

Lemma header_mapping_keys_witness :
  exists info : dict,
    with_open (ramp 54) (read_header big_endian_host) = Ok info
    /\ keys info = header_keys.
Proof.
  destruct (header_mapping_keys big_endian_host (ramp 54)) as (info & H & Hkeys & _).
  - apply Nat.leb_le. reflexivity.
  - exists info. split; assumption.
Defined.

Lemma offset_resolution_witness :
  head_offset (header_of little_endian_host file_100_scans) = Ok 1024.
Proof.
  destruct (offset_resolution little_endian_host file_100_scans
              (header_of little_endian_host file_100_scans))
    as (d & c & Hd & Hc & Hho & _).
  - vm_compute. reflexivity.
  - vm_compute in Hd. vm_compute in Hc.
    injection Hd as <-. injection Hc as <-. exact Hho.
Defined.

Lemma sign_recentring_witness :
  recentre [("rh_bits", PyInt 8)] [0; 255; 17] = Ok [-128; 127; -111].
Proof.
  apply (proj1 (sign_recentring [("rh_bits", PyInt 8)] 8 [0; 255; 17] eq_refl)).
  - left. reflexivity.
  - repeat constructor; lia.
Defined.

Lemma matrix_shape_orientation_witness :
  exists data : np.ndarray,
    readdzt little_endian_host file_4x2x3 0 (-1)
    = Ok (data, header_of little_endian_host file_4x2x3)
    /\ np.shape data = (8, 3).
Proof.
  destruct (matrix_shape_orientation little_endian_host file_4x2x3 0 (-1)
              (samples_of file_4x2x3 0 (-1)))
    as (data & Hdata & Hshape & _).
  - apply Nat.leb_le. vm_compute. reflexivity.
  - vm_compute. reflexivity.
  - vm_compute. reflexivity.
  - exists 3. vm_compute. reflexivity.
  - exists data. split; [exact Hdata |]. rewrite Hshape. vm_compute. reflexivity.
Defined.

Lemma incomplete_trace_witness :
  readdzt little_endian_host file_4x2x3_plus_1 0 (-1) = Raise ValueError.
Proof.
  destruct (incomplete_trace little_endian_host file_4x2x3_plus_1 0 (-1)
              (samples_of file_4x2x3_plus_1 0 (-1))) as [H _].
  - apply Nat.leb_le. vm_compute. reflexivity.
  - vm_compute. reflexivity.
  - apply H. intros [c Hc].
    assert (Hn : len (samples_of file_4x2x3_plus_1 0 (-1)) = 25)
      by (vm_compute; reflexivity).
    assert (Hk : trace_len little_endian_host file_4x2x3_plus_1 = 8)
      by (vm_compute; reflexivity).
    rewrite Hn, Hk in Hc. lia.
Defined.

Lemma well_formed_file_100_scans : well_formed little_endian_host file_100_scans 100.
Proof.
  unfold well_formed.
  split; [apply Nat.leb_le; vm_compute; reflexivity |].
  split; [vm_compute; reflexivity |].
  split; [vm_compute; discriminate |].
  split; [left; vm_compute; reflexivity |].
  split; [vm_compute; discriminate |].
  split; [lia |].
  vm_compute. reflexivity.
Defined.

Lemma small_file_100_scans : len file_100_scans < 2 ^ 50.
Proof. vm_compute. reflexivity. Defined.

Lemma scan_windowing_witness :
  exists full win : np.ndarray,
    readdzt little_endian_host file_100_scans 0 (-1)
    = Ok (full, header_of little_endian_host file_100_scans)
    /\ readdzt little_endian_host file_100_scans 5 3
       = Ok (win, header_of little_endian_host file_100_scans)
    /\ np.shape win = (2, 3)
    /\ np.column win 0 = np.column full 5
    /\ np.column win 1 = np.column full 6
    /\ np.column win 2 = np.column full 7.
Proof.
  destruct (scan_windowing little_endian_host file_100_scans 100 5 3
              well_formed_file_100_scans small_file_100_scans)
    as (_ & _ & _ & full & win & Hfull & Hwin & _ & Hshape & _ & Hcol & _);
    [lia | lia | lia |].
  exists full, win.
  split; [exact Hfull |]. split; [exact Hwin |].
  split; [exact Hshape |].
  split; [apply (Hcol 0%nat); vm_compute; lia |].
  split; [apply (Hcol 1%nat); vm_compute; lia | apply (Hcol 2%nat); vm_compute; lia].
Defined.

Lemma end_to_end_scenario_witness :
  (exists info : dict,
     readdzt big_endian_host
       (sample_header_native big_endian_host 1024 256 16 1 1024
        ++ words_32768_native big_endian_host) 0 (-1)
     = Ok (np.mk_ndarray (256, 5) (repeat (repeat 0 5) 256), info)
     /\ getitem info "rh_nsamp" = Ok (PyInt 256))
  /\ (exists info : dict,
        readdzt little_endian_host (sample_header 1024 256 16 1 1024 ++ words_32768) 0 (-1)
        = Ok (np.mk_ndarray (256, 5) (repeat (repeat 0 5) 256), info)
        /\ getitem info "rh_nsamp" = Ok (PyInt 256)).
Proof.
  split.
  - apply (end_to_end_scenario big_endian_host
             (sample_header_native big_endian_host 1024 256 16 1 1024)).
    + vm_compute. reflexivity.
    + vm_compute. reflexivity.
    + vm_compute. reflexivity.
    + vm_compute. reflexivity.
    + vm_compute. reflexivity.
  - apply (end_to_end_scenario little_endian_host (sample_header 1024 256 16 1 1024)).
    + vm_compute. reflexivity.
    + vm_compute. reflexivity.
    + vm_compute. reflexivity.
    + vm_compute. reflexivity.
    + vm_compute. reflexivity.
    + reflexivity.
Defined.

(** C6 as stated fails.  The buffer of the claim (the four fields and the
    words little-endian), decoded on a big-endian host, gives no matrix:
    [rh_bits] is read as 4096, no sample type is selected and the call
    raises UnboundLocalError for [datatype]. *)
Lemma end_to_end_big_endian_counterexample :
  length (sample_header 1024 256 16 1 1024) = 1024%nat
  /\ rh_data little_endian_host (sample_header 1024 256 16 1 1024) = 1024
  /\ rh_nsamp little_endian_host (sample_header 1024 256 16 1 1024) = 256
  /\ rh_bits little_endian_host (sample_header 1024 256 16 1 1024) = 16
  /\ rh_nchan little_endian_host (sample_header 1024 256 16 1 1024) = 1
  /\ rh_bits big_endian_host (sample_header 1024 256 16 1 1024) = 4096
  /\ readdzt big_endian_host (sample_header 1024 256 16 1 1024 ++ words_32768) 0 (-1)
     = Raise (UnboundLocalError "datatype").
Proof.
  repeat split; vm_compute; reflexivity.
Qed.

Lemma unsupported_sample_width_witness :
  readdzt little_endian_host file_12_bits 0 (-1) = Raise (UnboundLocalError "datatype").
Proof.
  destruct (unsupported_sample_width little_endian_host file_12_bits 0 (-1)) as [_ H].
  - apply Nat.leb_le. vm_compute. reflexivity.
  - vm_compute. discriminate.
  - vm_compute. discriminate.
  - vm_compute. discriminate.
  - apply H. vm_compute. reflexivity.
Defined.

Lemma window_is_clamped_witness :
  (exists data : np.ndarray,
     readdzt little_endian_host file_100_scans 98 5
     = Ok (data, header_of little_endian_host file_100_scans)
     /\ np.shape data = (2, 2))
  /\ readdzt little_endian_host file_100_scans 0 (2 ^ 40) = Raise MemoryError
  /\ readdzt little_endian_host file_100_scans 0 (2 ^ 62) = Raise OverflowError
  /\ readdzt little_endian_host file_4x2x3 0 (2 ^ 59) = Raise ValueError.
Proof.
  split; [| split; [| split]].
  - destruct (window_is_clamped little_endian_host file_100_scans 100 98 5
                well_formed_file_100_scans small_file_100_scans) as [H _]; [lia |].
    destruct H as (data & Hdata & Hshape & _).
    + right. split; [vm_compute; reflexivity | vm_compute; discriminate].
    + exists data. split; [exact Hdata |]. rewrite Hshape. vm_compute. reflexivity.
  - destruct (window_is_clamped little_endian_host file_100_scans 100 0 (2 ^ 40)
                well_formed_file_100_scans small_file_100_scans) as (_ & _ & H); [lia |].
    apply H; [lia | vm_compute; reflexivity | vm_compute; reflexivity].
  - destruct (window_is_clamped little_endian_host file_100_scans 100 0 (2 ^ 62)
                well_formed_file_100_scans small_file_100_scans) as (_ & _ & H); [lia |].
    apply H; [lia | vm_compute; discriminate].
  - vm_compute. reflexivity.
Defined.

(** C8 as stated fails.  On a well-formed file of 100 scans: the window
    [start_scan = 98], [n_scans = 5] reaches past the last scan and is cut to
    two columns without an error; [start_scan = 150] lies wholly beyond the
    stream and yields an empty matrix; [n_scans = 0] and [n_scans = -7] are
    not the sentinel and still read the whole file. *)
Lemma offset_out_of_range_counterexample :
  well_formed little_endian_host file_100_scans 100
  /\ 100 < 98 + 5
  /\ 100 < 150
  /\ (exists data, readdzt little_endian_host file_100_scans 98 5
                   = Ok (data, header_of little_endian_host file_100_scans)
                   /\ np.shape data = (2, 2))
  /\ (exists data, readdzt little_endian_host file_100_scans 150 5
                   = Ok (data, header_of little_endian_host file_100_scans)
                   /\ np.shape data = (2, 0))
  /\ (exists data, readdzt little_endian_host file_100_scans 0 0
                   = Ok (data, header_of little_endian_host file_100_scans)
                   /\ np.shape data = (2, 100))
  /\ readdzt little_endian_host file_100_scans 0 (-7)
     = readdzt little_endian_host file_100_scans 0 (-1).
Proof.
  split; [exact well_formed_file_100_scans |].
  split; [lia |]. split; [lia |].
  split; [eexists; split; [vm_compute; reflexivity | reflexivity] |].
  split; [eexists; split; [vm_compute; reflexivity | reflexivity] |].
  split; [eexists; split; [vm_compute; reflexivity | reflexivity] |].
  vm_compute. reflexivity.
Qed.

(** * Further properties of the decoder *)

(** ** Files too short for a header *)

(** A file of fewer than 54 bytes, the empty file included, raises
    [struct.error] in the header pass, whatever the scan arguments. *)
Theorem short_file_raises (host : machine) (file : list byte)
        (start_scan n_scans : Z) :
  (length file < 54)%nat ->
  readdzt host file start_scan n_scans = Raise StructError.
Proof.
  intros H. unfold readdzt. rewrite read_header_short by assumption. reflexivity.
Qed.

Lemma short_file_raises_witness :
  readdzt little_endian_host [] 0 (-1) = Raise StructError
  /\ readdzt big_endian_host (ramp 53) 5 3 = Raise StructError.
Proof.
  split.
  - apply short_file_raises. cbn [length]. lia.
  - apply short_file_raises. apply Nat.ltb_lt. reflexivity.
Defined.

(** ** The returned header *)

(** The header mapping a successful call returns is the one the header pass
    decodes. *)
Lemma readdzt_ok_header (host : machine) (file : list byte)
      (start_scan n_scans : Z) (data : np.ndarray) (info : dict) :
  readdzt host file start_scan n_scans = Ok (data, info) ->
  (54 <= length file)%nat /\ info = header_of host file.
Proof.
  intros H. unfold readdzt in H.
  destruct (with_open file (read_header host)) as [info0 | e] eqn:Hh; [| discriminate].
  apply read_header_inv in Hh. destruct Hh as [Hlen ->]. cbn [bind] in H.
  destruct (read_samples _ _ _ _ _) as [datvec | e]; [| discriminate]. cbn [bind] in H.
  destruct (build_matrix _ _) as [m | e]; [| discriminate]. cbn [bind] in H.
  injection H as _ <-. split; [assumption | reflexivity].
Qed.

(** ** The range of the header fields *)

Lemma length_native (host : machine) (bs : list byte) :
  length (native host bs) = length bs.
Proof. unfold native; destruct (order host); [reflexivity | apply length_rev]. Qed.

Lemma length_slice_le (file : list byte) (off n : nat) :
  (length (slice file off n) <= n)%nat.
Proof. unfold slice. apply firstn_le_length. Qed.

Lemma le_combine_range (bs : list byte) (n : nat) :
  (length bs <= n)%nat -> 0 <= le_combine bs < 2 ^ (8 * Z.of_nat n).
Proof.
  intros H. pose proof (le_combine_bound bs) as [Hlo Hhi]. split; [assumption |].
  apply Z.lt_le_trans with (2 ^ (8 * Z.of_nat (length bs))); [assumption |].
  apply Z.pow_le_mono_r; lia.
Qed.

Lemma signed_range (bits u : Z) :
  0 < bits -> 0 <= u < 2 ^ bits -> - 2 ^ (bits - 1) <= signed bits u < 2 ^ (bits - 1).
Proof.
  intros Hb Hu. unfold signed.
  assert (Hp : 2 ^ bits = 2 * 2 ^ (bits - 1))
    by (rewrite <- Z.pow_succ_r by lia; f_equal; lia).
  destruct (Z.ltb_spec u (2 ^ (bits - 1))); lia.
Qed.

Lemma int16_at_range (host : machine) (file : list byte) (off : nat) :
  - 2 ^ 15 <= int16_at host file off < 2 ^ 15.
Proof.
  unfold int16_at. apply (signed_range 16); [lia |].
  apply (le_combine_range _ 2). rewrite length_native. apply length_slice_le.
Qed.

(** Every bit pattern decodes to a binary32 datum. *)
Lemma binary32_of_bits_valid (w : Z) : valid_binary 24 128 (binary32_of_bits w) = true.
Proof.
  unfold binary32_of_bits.
  assert (Hm : 0 <= Z.land w (Z.ones 23) < 2 ^ 23)
    by (rewrite Z.land_ones by lia; apply Z.mod_pos_bound; lia).
  assert (He : 0 <= Z.land (Z.shiftr w 23) 255 < 256)
    by (change 255 with (Z.ones 8); rewrite Z.land_ones by lia;
        apply Z.mod_pos_bound; lia).
  set (m := Z.land w (Z.ones 23)) in *.
  set (e := Z.land (Z.shiftr w 23) 255) in *.
  destruct (Z.eqb_spec e 0) as [He0 | He0].
  - destruct m as [| p | p] eqn:Hmp; [reflexivity | | reflexivity].
    cbn [valid_binary]. unfold bounded, canonical_mantissa, fexp, emin.
    pose proof (digits2_pos_bounds p) as [Hlo Hhi].
    set (d := Zpos (digits2_pos p)) in *.
    assert (Hd : d <= 23).
    { destruct (Z.le_gt_cases d 23) as [| Hgt]; [assumption | exfalso].
      assert (2 ^ 23 <= 2 ^ (d - 1)) by (apply Z.pow_le_mono_r; lia). lia. }
    apply andb_true_intro. split; [apply Z.eqb_eq | apply Z.leb_le]; lia.
  - destruct (Z.eqb_spec e 255) as [He1 | He1].
    + destruct (m =? 0); reflexivity.
    + destruct (m + 2 ^ 23) as [| p | p] eqn:Hmp; [reflexivity | | reflexivity].
      cbn [valid_binary]. unfold bounded, canonical_mantissa, fexp, emin.
      pose proof (digits2_pos_bounds p) as [Hlo Hhi].
      set (d := Zpos (digits2_pos p)) in *.
      assert (Hd : d = 24).
      { assert (Hp : 2 ^ 23 <= Zpos p < 2 ^ 24) by lia.
        destruct (Z.lt_trichotomy d 24) as [Hlt | [Heq | Hgt]]; [exfalso | assumption | exfalso].
        - assert (2 ^ d <= 2 ^ 23) by (apply Z.pow_le_mono_r; subst d; lia). lia.
        - assert (2 ^ 24 <= 2 ^ (d - 1)) by (apply Z.pow_le_mono_r; lia). lia. }
      apply andb_true_intro. split; [apply Z.eqb_eq | apply Z.leb_le]; lia.
Qed.

(** Whatever the bytes of the file, every integer field of a decoded header
    is a 16-bit signed integer and every float field is a binary32 datum
    (a zero, a finite number, an infinity or NaN). *)
Theorem header_values_in_range (host : machine) (file : list byte) (info : dict) :
  with_open file (read_header host) = Ok info ->
  Forall (fun kv => header_value_ok (snd kv)) info.
Proof.
  intros H. apply read_header_inv in H. destruct H as [_ ->].
  unfold header_of.
  repeat (constructor;
          [cbn [snd header_value_ok];
           first [apply int16_at_range | apply binary32_of_bits_valid] |]).
  constructor.
Qed.

Lemma header_values_in_range_witness :
  Forall (fun kv => header_value_ok (snd kv)) (header_of big_endian_host (ramp 60)).
Proof.
  apply (header_values_in_range big_endian_host (ramp 60)).
  vm_compute. reflexivity.
Defined.

(** [head_offset] of a decoded header is a multiple of 1024 between
    [-2^25] and [2^25 - 1024]; it is negative exactly when the field it is
    taken from is. *)
Theorem head_offset_range (host : machine) (file : list byte) (info : dict) :
  with_open file (read_header host) = Ok info ->
  exists h : Z,
    head_offset info = Ok h
    /\ (1024 | h)
    /\ - 2 ^ 25 <= h <= 2 ^ 25 - 1024
    /\ (h < 0 <-> (if rh_data host file <? 1024 then rh_data host file
                   else rh_nchan host file) < 0).
Proof.
  intros H. apply read_header_inv in H. destruct H as [_ ->].
  exists (header_size host file). split; [apply head_offset_header |].
  unfold header_size, rh_data, rh_nchan.
  pose proof (int16_at_range host file 2).
  pose proof (int16_at_range host file 52).
  destruct (int16_at host file 2 <? 1024).
  - split; [exists (int16_at host file 2); lia |]. split; lia.
  - split; [exists (int16_at host file 52); lia |]. split; lia.
Qed.

Lemma head_offset_range_witness :
  exists h : Z,
    head_offset (header_of little_endian_host file_100_scans) = Ok h
    /\ (1024 | h) /\ - 2 ^ 25 <= h <= 2 ^ 25 - 1024.
Proof.
  destruct (head_offset_range little_endian_host file_100_scans
              (header_of little_endian_host file_100_scans))
    as (h & Hh & Hdiv & Hr & _).
  - vm_compute. reflexivity.
  - exists h. repeat split; assumption || apply Hr.
Defined.

(** ** Decoding a field loses nothing *)

Lemma binary32_bits_split (w : Z) :
  0 <= w < 2 ^ 32 ->
  exists (s : bool) (E M : Z),
    0 <= E < 256 /\ 0 <= M < 2 ^ 23
    /\ w = (if s then 2 ^ 31 else 0) + E * 2 ^ 23 + M.
Proof.
  intros Hw.
  exists (2 ^ 31 <=? w), ((w / 2 ^ 23) mod 256), (w mod 2 ^ 23).
  destruct (Z.leb_spec (2 ^ 31) w); repeat split;
    Z.div_mod_to_equations; lia.
Qed.

Lemma bits_of_binary32_of_bits (w : Z) :
  0 <= w < 2 ^ 32 ->
  binary32_of_bits w <> S754_nan ->
  bits_of_binary32 (binary32_of_bits w) = w.
Proof.
  intros Hw.
  destruct (binary32_bits_split w Hw) as (s & E & M & HE & HM & ->).
  rewrite binary32_of_fields by assumption.
  destruct (Z.eqb_spec E 0) as [-> | HE0].
  - destruct M as [| p | p]; intros _; cbn [bits_of_binary32].
    + lia.
    + destruct (Z.ltb_spec (Zpos p) (2 ^ 23)); lia.
    + lia.
  - destruct (Z.eqb_spec E 255) as [-> | HE1].
    + destruct (Z.eqb_spec M 0) as [-> | HM0]; intros Hnan; [| contradiction].
      cbn [bits_of_binary32]. lia.
    + destruct (M + 2 ^ 23) as [| p | p] eqn:Hp; intros Hnan; try contradiction.
      cbn [bits_of_binary32].
      destruct (Z.ltb_spec (Zpos p) (2 ^ 23)); lia.
Qed.

Lemma signed_16_inj (u v : Z) :
  0 <= u < 2 ^ 16 -> 0 <= v < 2 ^ 16 -> signed 16 u = signed 16 v -> u = v.
Proof.
  unfold signed. change (16 - 1) with 15. intros Hu Hv.
  destruct (Z.ltb_spec u (2 ^ 15)); destruct (Z.ltb_spec v (2 ^ 15)); lia.
Qed.

Lemma native_inj (host : machine) (b1 b2 : list byte) :
  native host b1 = native host b2 -> b1 = b2.
Proof.
  unfold native; destruct (order host); intros H; [assumption |].
  rewrite <- (rev_involutive b1), <- (rev_involutive b2), H. reflexivity.
Qed.

(** The two formats of the header lose nothing: buffers that unpack to the
    same integer are equal, and so are buffers that unpack to the same
    float, unless that float is NaN. *)
Theorem unpack_injective (host : machine) (b1 b2 : list byte) :
  (forall z, Struct.unpack_h host b1 = Ok z -> Struct.unpack_h host b2 = Ok z -> b1 = b2)
  /\ (forall f, Struct.unpack_f host b1 = Ok f -> Struct.unpack_f host b2 = Ok f ->
                f <> S754_nan -> b1 = b2).
Proof.
  split.
  - intros z. unfold Struct.unpack_h.
    destruct (Nat.eqb_spec (length b1) 2) as [H1 | H1]; [| discriminate].
    destruct (Nat.eqb_spec (length b2) 2) as [H2 | H2]; [| discriminate].
    intros E1 E2. injection E1 as E1. injection E2 as E2.
    apply (native_inj host). apply le_combine_inj.
    + rewrite !length_native. congruence.
    + apply signed_16_inj; [| | congruence].
      * apply (le_combine_range _ 2). rewrite length_native. lia.
      * apply (le_combine_range _ 2). rewrite length_native. lia.
  - intros f. unfold Struct.unpack_f.
    destruct (Nat.eqb_spec (length b1) 4) as [H1 | H1]; [| discriminate].
    destruct (Nat.eqb_spec (length b2) 4) as [H2 | H2]; [| discriminate].
    intros E1 E2 Hnan. injection E1 as E1. injection E2 as E2.
    apply (native_inj host). apply le_combine_inj.
    + rewrite !length_native. congruence.
    + rewrite <- (bits_of_binary32_of_bits (le_combine (native host b1))).
      * rewrite <- (bits_of_binary32_of_bits (le_combine (native host b2))).
        -- congruence.
        -- apply (le_combine_range _ 4). rewrite length_native. lia.
        -- congruence.
      * apply (le_combine_range _ 4). rewrite length_native. lia.
      * congruence.
Qed.

Lemma unpack_injective_witness :
  Struct.unpack_f little_endian_host [Byte.x00; Byte.x00; Byte.x80; Byte.x3f] = Ok f32_one
  /\ [Byte.x00; Byte.x00; Byte.x80; Byte.x3f] = [Byte.x00; Byte.x00; Byte.x80; Byte.x3f].
Proof.
  split; [reflexivity |].
  apply (proj2 (unpack_injective little_endian_host
                  [Byte.x00; Byte.x00; Byte.x80; Byte.x3f]
                  [Byte.x00; Byte.x00; Byte.x80; Byte.x3f]) f32_one).
  - reflexivity.
  - reflexivity.
  - discriminate.
Defined.

(** ** What a successful call returns *)

Lemma dtype_of_bits_inv (bits : Z) (dt : np.dtype) :
  dtype_of_bits bits = Some dt ->
  (bits = 8 /\ dt = np.uint8) \/ (bits = 16 /\ dt = np.uint16)
  \/ (bits = 32 /\ dt = np.int32).
Proof.
  unfold dtype_of_bits.
  destruct (Z.eqb_spec bits 8); [intros H; injection H as <-; auto |].
  destruct (Z.eqb_spec bits 16); [intros H; injection H as <-; auto |].
  destruct (Z.eqb_spec bits 32); [intros H; injection H as <-; auto | discriminate].
Qed.

Lemma reshape_inv (a : list Z) (k : Z) (m : np.ndarray) :
  np.reshape a k = Ok m ->
  0 < k /\ (k | len a)
  /\ m = np.mk_ndarray (len a / k, k) (group (Z.to_nat k) a (Z.to_nat (len a / k))).
Proof.
  unfold np.reshape.
  destruct (Z.ltb_spec k 0) as [Hneg | Hnn]; [discriminate |].
  destruct (Z.eqb_spec k 0) as [Hz | Hnz]; [discriminate |].
  destruct (Z.eqb_spec (len a mod k) 0) as [Hmod | Hmod]; [| discriminate].
  cbn [orb negb]. intros Hm. injection Hm as <-.
  split; [lia |]. split; [apply Z.mod_divide; [lia | assumption] | reflexivity].
Qed.

(** The whole items [np.fromfile] returns. *)
Lemma fromfile_inv (host : machine) (file : list byte) (dt : np.dtype)
      (offset count : Z) (raw : list Z) :
  np.fromfile host file dt offset count = Ok raw ->
  exists items : list (list byte),
    raw = map (np.item host dt) items
    /\ Forall (fun bs => length bs = Z.to_nat (np.itemsize dt)) items.
Proof.
  unfold np.fromfile.
  assert (Hes : 0 < np.itemsize dt) by (destruct dt; reflexivity).
  destruct (negb _); [discriminate |].
  destruct (offset <? 0); [discriminate |].
  destruct ((len file <? offset) && _); [discriminate |].
  set (num := if count <? 0 then Z.quot (len file - offset) (np.itemsize dt) else count).
  destruct (Z.ltb_spec num 0) as [Hneg | Hnum]; [discriminate |].
  destruct (2 ^ 63 <=? _); [discriminate |].
  set (rest := skipn (Z.to_nat offset) file).
  destruct ((len rest / _ <? num) && _); [discriminate |].
  intros Hraw. injection Hraw as <-.
  eexists. split; [reflexivity |].
  apply Forall_length_group.
  pose proof (Z.mul_div_le (len rest) (np.itemsize dt) Hes) as Hle.
  assert (0 <= len rest / np.itemsize dt) by (apply Z.div_pos; unfold len; lia).
  rewrite <- Z2Nat.inj_mul by lia. unfold len in *. nia.
Qed.

Lemma sample_in_range (host : machine) (bits : Z) (dt : np.dtype) (bs : list byte) :
  dtype_of_bits bits = Some dt ->
  length bs = Z.to_nat (np.itemsize dt) ->
  in_sample_range bits (recentre_value bits (np.item host dt bs)).
Proof.
  intros Hdt Hlen. unfold in_sample_range.
  apply dtype_of_bits_inv in Hdt.
  destruct Hdt as [[-> ->] | [[-> ->] | [-> ->]]]; cbn [np.itemsize np.item] in *.
  - pose proof (le_combine_range bs 1 ltac:(lia)) as Hr.
    rewrite recentre_value_unsigned by (auto || (change (2 ^ 8) with (2 ^ (8 * Z.of_nat 1)); exact Hr)).
    change (2 ^ (8 * Z.of_nat 1)) with 256 in Hr. change (2 ^ (8 - 1)) with 128. lia.
  - pose proof (le_combine_range (native host bs) 2 ltac:(rewrite length_native; lia)) as Hr.
    rewrite recentre_value_unsigned by (auto || (change (2 ^ 16) with (2 ^ (8 * Z.of_nat 2)); exact Hr)).
    change (2 ^ (8 * Z.of_nat 2)) with 65536 in Hr. change (2 ^ (16 - 1)) with 32768. lia.
  - pose proof (le_combine_range (native host bs) 4 ltac:(rewrite length_native; lia)) as Hr.
    unfold recentre_value. cbn [Z.eqb Pos.eqb orb].
    apply (signed_range 32); [lia | exact Hr].
Qed.

Lemma Forall_group {A} (P : A -> Prop) (n : nat) (l : list A) (c : nat) :
  Forall P l -> Forall (Forall P) (group n l c).
Proof.
  revert l; induction c as [| c IH]; intros l Hl; cbn [group]; constructor.
  - apply (Forall_window P l 0 n Hl).
  - apply IH. rewrite <- (firstn_all2 (n := length (skipn n l)) (skipn n l)) by lia.
    apply Forall_window. assumption.
Qed.

(** The entries of a transposed array are entries of the array (or the
    filler 0). *)
Lemma Forall_T (P : Z -> Prop) (c k : Z) (rows : list (list Z)) :
  P 0 -> Forall (Forall P) rows ->
  Forall (Forall P) (np.tolist (np.T (np.mk_ndarray (c, k) rows))).
Proof.
  intros H0 Hrows. unfold np.T. cbn [np.shape np.tolist].
  apply Forall_forall. intros row Hin.
  apply in_map_iff in Hin. destruct Hin as (r & <- & _).
  apply Forall_forall. intros v Hv.
  apply in_map_iff in Hv. destruct Hv as (row' & <- & Hrow').
  rewrite Forall_forall in Hrows. specialize (Hrows row' Hrow').
  destruct (nth_in_or_default r row' 0) as [Hin | ->]; [| assumption].
  rewrite Forall_forall in Hrows. apply Hrows. assumption.
Qed.

(** A successful call, taken apart. *)
Lemma readdzt_ok_inv (host : machine) (file : list byte)
      (start_scan n_scans : Z) (data : np.ndarray) (info : dict) :
  readdzt host file start_scan n_scans = Ok (data, info) ->
  exists (dt : np.dtype) (offset cnt : Z) (raw : list Z),
    dtype_of_bits (rh_bits host file) = Some dt
    /\ np.fromfile host file dt offset cnt = Ok raw
    /\ 0 < trace_len host file
    /\ (trace_len host file | len raw)
    /\ data = np.T (np.mk_ndarray
                      (len raw / trace_len host file, trace_len host file)
                      (group (Z.to_nat (trace_len host file))
                             (map (recentre_value (rh_bits host file)) raw)
                             (Z.to_nat (len raw / trace_len host file)))).
Proof.
  intros H. pose proof (readdzt_ok_header _ _ _ _ _ _ H) as [Hlen _].
  rewrite readdzt_header in H by assumption. unfold read_samples in H.
  rewrite select_datatype_header, head_offset_header in H. cbn [bind] in H.
  destruct (start_offset _ _) as [so | e]; [| discriminate]. cbn [bind] in H.
  rewrite count_header in H. cbn [bind] in H.
  destruct (dtype_of_bits (rh_bits host file)) as [dt |] eqn:Hdt; [| discriminate].
  cbn [bind] in H.
  destruct (np.fromfile _ _ _ _ _) as [raw | e] eqn:Hraw; [| discriminate].
  cbn [bind] in H. rewrite recentre_header in H. cbn [bind] in H.
  rewrite build_matrix_header in H.
  destruct (np.reshape _ _) as [m | e] eqn:Hm; [| discriminate]. cbn [bind] in H.
  injection H as <- _.
  apply reshape_inv in Hm. destruct Hm as (Hk & Hdiv & ->).
  unfold len in Hdiv |- *. rewrite length_map in *.
  eexists dt, _, _, raw. repeat split; try eassumption.
Qed.

(** Whatever the file and the scan arguments, a matrix that is returned is
    rectangular: the trace length [rh_nsamp * rh_nchan] is positive, the
    matrix has that many rows, and all its rows have the length given by its
    shape. *)
Theorem decoded_matrix_shape (host : machine) (file : list byte)
        (start_scan n_scans : Z) (data : np.ndarray) (info : dict) :
  readdzt host file start_scan n_scans = Ok (data, info) ->
  0 < trace_len host file
  /\ exists c : Z,
       0 <= c
       /\ np.shape data = (trace_len host file, c)
       /\ length (np.tolist data) = Z.to_nat (trace_len host file)
       /\ Forall (fun row => length row = Z.to_nat c) (np.tolist data).
Proof.
  intros H. apply readdzt_ok_inv in H.
  destruct H as (dt & offset & cnt & raw & _ & _ & Hk & Hdiv & ->).
  set (k := trace_len host file) in *.
  split; [assumption |]. exists (len raw / k).
  assert (Hc : 0 <= len raw / k) by (apply Z.div_pos; unfold len; lia).
  split; [assumption |].
  destruct (T_rows (len raw / k) k
              (group (Z.to_nat k) (map (recentre_value (rh_bits host file)) raw)
                     (Z.to_nat (len raw / k))))
    as (Hshape & Hrows & Hcols & _).
  - apply length_group.
  - assert (Hlen : len (map (recentre_value (rh_bits host file)) raw) = len raw)
      by (unfold len; rewrite length_map; reflexivity).
    rewrite <- Hlen. apply group_exact_lengths; [assumption |].
    rewrite Hlen. assumption.
  - repeat split; assumption.
Qed.

Lemma decoded_matrix_shape_witness :
  exists c : Z, np.shape (matrix_of file_100_scans 98 5) = (2, c) /\ 0 <= c.
Proof.
  destruct (decoded_matrix_shape little_endian_host file_100_scans 98 5
              (matrix_of file_100_scans 98 5)
              (header_of little_endian_host file_100_scans))
    as (_ & c & Hc & Hshape & _).
  - vm_compute. reflexivity.
  - exists c. split; [| exact Hc]. rewrite Hshape. vm_compute. reflexivity.
Defined.

(** Whatever the file and the scan arguments, when a matrix is returned the
    sample width is 8, 16 or 32 and every entry lies in the signed range of
    that width: [-128, 127], [-32768, 32767] or [-2^31, 2^31 - 1]. *)
Theorem decoded_entries_in_range (host : machine) (file : list byte)
        (start_scan n_scans : Z) (data : np.ndarray) (info : dict) :
  readdzt host file start_scan n_scans = Ok (data, info) ->
  (rh_bits host file = 8 \/ rh_bits host file = 16 \/ rh_bits host file = 32)
  /\ Forall (Forall (in_sample_range (rh_bits host file))) (np.tolist data).
Proof.
  intros H. apply readdzt_ok_inv in H.
  destruct H as (dt & offset & cnt & raw & Hdt & Hraw & _ & _ & ->).
  assert (Hbits : rh_bits host file = 8 \/ rh_bits host file = 16 \/ rh_bits host file = 32)
    by (destruct (dtype_of_bits_inv _ _ Hdt) as [[? _] | [[? _] | [? _]]]; auto).
  split; [assumption |].
  apply Forall_T.
  - unfold in_sample_range. destruct Hbits as [-> | [-> | ->]]; cbn; lia.
  - apply Forall_group.
    apply fromfile_inv in Hraw. destruct Hraw as (items & -> & Hitems).
    rewrite map_map. apply Forall_map.
    apply (Forall_impl _ (P := fun bs => length bs = Z.to_nat (np.itemsize dt))); [| assumption].
    intros bs Hbs. apply sample_in_range; assumption.
Qed.

Lemma decoded_entries_in_range_witness :
  Forall (Forall (in_sample_range 8)) (np.tolist (matrix_of file_100_scans 5 3)).
Proof.
  apply (proj2 (decoded_entries_in_range little_endian_host file_100_scans 5 3
                  (matrix_of file_100_scans 5 3)
                  (header_of little_endian_host file_100_scans)
                  ltac:(vm_compute; reflexivity))).
Defined.

(** ** The exceptions of [readdzt] *)

Lemma fromfile_raises (host : machine) (file : list byte) (dt : np.dtype)
      (offset count : Z) (e : exn) :
  np.fromfile host file dt offset count = Raise e ->
  e = OverflowError \/ e = OSError \/ e = ValueError \/ e = MemoryError.
Proof.
  unfold np.fromfile.
  destruct (negb _); [intros H; injection H as <-; auto |].
  destruct (offset <? 0); [intros H; injection H as <-; auto |].
  destruct ((len file <? offset) && _); [intros H; injection H as <-; auto |].
  set (num := if count <? 0 then Z.quot (len file - offset) (np.itemsize dt) else count).
  destruct (num <? 0); [intros H; injection H as <-; auto |].
  destruct (2 ^ 63 <=? _); [intros H; injection H as <-; auto |].
  destruct ((_ <? num) && _); [intros H; injection H as <-; auto | discriminate].
Qed.

(** A call that fails raises one of seven exceptions: [struct.error],
    UnboundLocalError for [datatype], NameError for [warnings],
    OverflowError, OSError, ValueError or MemoryError; it raises
    [struct.error] exactly when the file has fewer than 54 bytes.  No
    KeyError or TypeError comes out of the header mapping. *)
Theorem readdzt_raises_only (host : machine) (file : list byte)
        (start_scan n_scans : Z) (e : exn) :
  readdzt host file start_scan n_scans = Raise e ->
  In e readdzt_exceptions
  /\ (e = StructError <-> (length file < 54)%nat).
Proof.
  intros H. unfold readdzt_exceptions.
  destruct (Nat.lt_ge_cases (length file) 54) as [Hshort | Hlong].
  - unfold readdzt in H. rewrite read_header_short in H by assumption.
    injection H as <-. split; [left; reflexivity | tauto].
  - assert (Hgoal : In e [UnboundLocalError "datatype"; NameError "warnings";
                          OverflowError; OSError; ValueError; MemoryError]).
    { rewrite readdzt_header in H by assumption. unfold read_samples in H.
      rewrite select_datatype_header, head_offset_header in H. cbn [bind] in H.
      destruct (start_offset_cases (header_of host file) start_scan) as [[z Hz] | Hz];
        rewrite Hz in H; cbn [bind] in H;
        [| injection H as <-; cbn [In]; auto 10].
      rewrite count_header in H. cbn [bind] in H.
      destruct (dtype_of_bits (rh_bits host file)) as [dt |];
        [| injection H as <-; cbn [In]; auto 10].
      cbn [bind] in H.
      destruct (np.fromfile _ _ _ _ _) as [raw | e'] eqn:Hraw.
      - cbn [bind] in H. rewrite recentre_header in H. cbn [bind] in H.
        rewrite build_matrix_header in H.
        destruct (np.reshape _ _) as [m | e'] eqn:Hm; [discriminate |].
        cbn [bind] in H. injection H as <-.
        unfold np.reshape in Hm.
        destruct (trace_len host file <? 0);
          [injection Hm as <-; cbn [In]; auto 10 |].
        destruct ((trace_len host file =? 0) || _);
          [injection Hm as <-; cbn [In]; auto 10 | discriminate].
      - cbn [bind] in H. injection H as <-.
        apply fromfile_raises in Hraw. cbn [In].
        destruct Hraw as [-> | [-> | [-> | ->]]]; auto 10. }
    split; [right; assumption |].
    split; [| lia].
    intros ->. cbn [In] in Hgoal.
    repeat (destruct Hgoal as [Hgoal | Hgoal]; [discriminate |]). contradiction.
Qed.

Lemma readdzt_raises_only_witness :
  In OSError readdzt_exceptions /\ In MemoryError readdzt_exceptions.
Proof.
  split.
  - apply (proj1 (readdzt_raises_only little_endian_host file_100_scans (-600) 3 OSError
                    ltac:(vm_compute; reflexivity))).
  - apply (proj1 (readdzt_raises_only little_endian_host file_100_scans 0 (2 ^ 40)
                    MemoryError ltac:(vm_compute; reflexivity))).
Defined.

(** ** Read positions outside the file *)








(** ** Adjacent windows *)

Lemma firstn_add {A} (l : list A) (a b : nat) :
  firstn (a + b) l = firstn a l ++ firstn b (skipn a l).
Proof.
  revert l; induction a as [| a IH]; intros l; [reflexivity |].
  destruct l as [| x l]; cbn [Nat.add firstn skipn app].
  - rewrite firstn_nil. reflexivity.
  - rewrite IH. reflexivity.
Qed.

Lemma combine_map_same {A B C} (f : A -> B) (g : A -> C) (l : list A) :
  combine (map f l) (map g l) = map (fun x => (f x, g x)) l.
Proof. induction l as [| x l IH]; cbn [map combine]; [| rewrite IH]; reflexivity. Qed.

(** The transpose of the rows of two arrays one after the other is the
    transposes side by side. *)
Lemma T_app (c1 c2 k : Z) (rows1 rows2 : list (list Z)) :
  np.T (np.mk_ndarray (c1 + c2, k) (rows1 ++ rows2))
  = hstack (np.T (np.mk_ndarray (c1, k) rows1)) (np.T (np.mk_ndarray (c2, k) rows2)).
Proof.
  unfold hstack, np.T. cbn [np.shape np.tolist fst snd]. f_equal.
  rewrite combine_map_same, map_map. apply map_ext. intros r.
  cbn [fst snd]. apply map_app.
Qed.

Lemma window_count_fits (host : machine) (file : list byte) (S n : Z) :
  well_formed host file S -> len file < 2 ^ 50 -> n <= S ->
  n * trace_len host file < 2 ^ 63.
Proof.
  intros Hwf Hsize Hn.
  pose proof (trace_len_pos host file S Hwf) as Hk.
  destruct Hwf as (_ & _ & _ & Hbits & Hhs & HS & Hfile).
  destruct (dtype_of_supported_bits _ Hbits) as (dt & _ & _ & Hes).
  rewrite Hes in Hfile.
  assert (0 < np.itemsize dt) by (destruct dt; reflexivity).
  set (k := trace_len host file) in *.
  assert (n * k <= S * k) by nia.
  assert (S * k <= S * (k * np.itemsize dt)) by nia. lia.
Qed.

(** Reading in chunks: on a well-formed file, the matrix of a window of
    [n1 + n2] scans is the matrix of its first [n1] scans and the matrix of
    the [n2] scans that follow, side by side ([np.hstack]); the three calls
    return the same header mapping. *)
Theorem windows_concatenate (host : machine) (file : list byte)
        (S start_scan n1 n2 : Z) :
  well_formed host file S ->
  len file < 2 ^ 50 ->
  0 <= start_scan -> 0 < n1 -> 0 < n2 -> start_scan + n1 + n2 <= S ->
  exists a b : np.ndarray,
    readdzt host file start_scan n1 = Ok (a, header_of host file)
    /\ readdzt host file (start_scan + n1) n2 = Ok (b, header_of host file)
    /\ readdzt host file start_scan (n1 + n2) = Ok (hstack a b, header_of host file).
Proof.
  intros Hwf Hsize Hs H1 H2 Hend.
  assert (E1 : scans_read S start_scan n1 = n1)
    by (unfold scans_read; destruct (Z.gtb_spec n1 0); lia).
  assert (E2 : scans_read S (start_scan + n1) n2 = n2)
    by (unfold scans_read; destruct (Z.gtb_spec n2 0); lia).
  assert (E12 : scans_read S start_scan (n1 + n2) = n1 + n2)
    by (unfold scans_read; destruct (Z.gtb_spec (n1 + n2) 0); lia).
  eexists. eexists.
  split; [| split].
  - rewrite (readdzt_window host file S Hwf Hsize)
      by (try apply (window_count_fits host file S); try assumption; lia).
    rewrite E1. reflexivity.
  - rewrite (readdzt_window host file S Hwf Hsize)
      by (try apply (window_count_fits host file S); try assumption; lia).
    rewrite E2. reflexivity.
  - rewrite (readdzt_window host file S Hwf Hsize)
      by (try apply (window_count_fits host file S); try assumption; lia).
    rewrite E12. f_equal. f_equal.
    rewrite <- T_app. f_equal. f_equal.
    rewrite !Z2Nat.inj_add by lia.
    rewrite firstn_add, skipn_skipn.
    rewrite (Nat.add_comm (Z.to_nat n1) (Z.to_nat start_scan)). reflexivity.
Qed.

Lemma windows_concatenate_witness :
  exists a b : np.ndarray,
    readdzt little_endian_host file_100_scans 5 3 = Ok (a, header_of little_endian_host file_100_scans)
    /\ readdzt little_endian_host file_100_scans 8 4 = Ok (b, header_of little_endian_host file_100_scans)
    /\ readdzt little_endian_host file_100_scans 5 7
       = Ok (hstack a b, header_of little_endian_host file_100_scans).
Proof.
  apply (windows_concatenate little_endian_host file_100_scans 100 5 3 4
           well_formed_file_100_scans small_file_100_scans); lia.
Defined.

(** ** Bytes after the last whole sample *)

Lemma float_at_app (host : machine) (hdr rest : list byte) (off : nat) :
  (off + 4 <= length hdr)%nat ->
  float_at host (hdr ++ rest) off = float_at host hdr off.
Proof.
  intros H. unfold float_at, slice.
  rewrite skipn_app, firstn_app, length_skipn.
  replace (4 - (length hdr - off))%nat with 0%nat by lia.
  cbn [firstn]. rewrite app_nil_r. reflexivity.
Qed.

(** The header mapping depends on the first 54 bytes only. *)
Lemma header_of_app (host : machine) (hdr rest : list byte) :
  (54 <= length hdr)%nat ->
  header_of host (hdr ++ rest) = header_of host hdr.
Proof.
  intros H. unfold header_of.
  rewrite !int16_at_app, !float_at_app by lia. reflexivity.
Qed.

Lemma group_app_l {A} (n : nat) (l l' : list A) (c : nat) :
  (c * n <= length l)%nat -> group n (l ++ l') c = group n l c.
Proof.
  revert l; induction c as [| c IH]; intros l Hc; [reflexivity |].
  cbn [group]. rewrite firstn_app, skipn_app.
  replace (n - length l)%nat with 0%nat by lia.
  cbn [firstn skipn]. rewrite app_nil_r, IH; [reflexivity |].
  rewrite length_skipn. lia.
Qed.

(** [np.fromfile] does not see fewer bytes than one item after the last
    whole item. *)
Lemma fromfile_app (host : machine) (file extra : list byte) (dt : np.dtype)
      (offset count r : Z) :
  0 <= offset -> 0 <= r ->
  len file - offset = r * np.itemsize dt ->
  len extra < np.itemsize dt ->
  np.fromfile host (file ++ extra) dt offset count
  = np.fromfile host file dt offset count.
Proof.
  intros Hoff Hr Hlen Hextra. unfold np.fromfile.
  assert (Hes : 0 < np.itemsize dt) by (destruct dt; reflexivity).
  set (es := np.itemsize dt) in *.
  destruct (negb _); [reflexivity |].
  destruct (Z.ltb_spec offset 0); [lia |].
  assert (Hlen' : len (file ++ extra) - offset = r * es + len extra)
    by (unfold len in *; rewrite length_app; lia).
  assert (Hx : 0 <= len extra) by (unfold len; lia).
  destruct (Z.ltb_spec (len file) offset); [nia |].
  destruct (Z.ltb_spec (len (file ++ extra)) offset); [nia |].
  cbn [andb].
  assert (Hq : Z.quot (len (file ++ extra) - offset) es = r).
  { rewrite Hlen', Z.quot_div_nonneg by nia.
    rewrite Z.div_add_l by lia. rewrite Z.div_small by lia. lia. }
  assert (Hrest : skipn (Z.to_nat offset) (file ++ extra)
                  = skipn (Z.to_nat offset) file ++ extra).
  { rewrite skipn_app.
    replace (Z.to_nat offset - length file)%nat with 0%nat by (unfold len in *; nia).
    reflexivity. }
  assert (Hlr : len (skipn (Z.to_nat offset) file) = r * es)
    by (unfold len in *; rewrite length_skipn; lia).
  rewrite Hq, Hlen, Z.quot_mul, Hrest by lia.
  assert (Hd' : len (skipn (Z.to_nat offset) file ++ extra) / es = r).
  { unfold len in *. rewrite length_app, Nat2Z.inj_add, Hlr.
    rewrite Z.div_add_l by lia. rewrite Z.div_small by lia. lia. }
  rewrite Hd', Hlr, Z.div_mul by lia.
  set (num := if count <? 0 then r else count).
  destruct (Z.ltb_spec num 0) as [Hneg | Hnum]; [reflexivity |].
  rewrite group_app_l; [reflexivity |].
  assert (Hmin : 0 <= Z.min num r <= r) by lia.
  assert (Hmul : Z.min num r * es <= r * es) by nia.
  rewrite <- Z2Nat.inj_mul by lia. unfold len in Hlr. lia.
Qed.

(** A truncated last sample is dropped silently: appending to a well-formed
    file fewer bytes than one sample changes neither the matrix nor the
    header mapping, for any window that starts inside the file. *)
Theorem trailing_bytes_ignored (host : machine) (file extra : list byte)
        (S start_scan n_scans : Z) :
  well_formed host file S ->
  len file < 2 ^ 50 ->
  len extra < rh_bits host file / 8 ->
  0 <= start_scan <= S ->
  readdzt host (file ++ extra) start_scan n_scans
  = readdzt host file start_scan n_scans.
Proof.
  intros Hwf Hsize Hextra Hstart.
  pose proof (trace_len_pos host file S Hwf) as Hk.
  pose proof (start_offset_wf host file S Hwf Hsize start_scan Hstart) as Hso.
  destruct Hwf as (Hlen & Hns & Hnc & Hbits & Hhs & HS & Hfile).
  destruct (dtype_of_supported_bits _ Hbits) as (dt & Hdt & Hb8 & Hes).
  rewrite Hes in *.
  assert (Hespos : 0 < np.itemsize dt) by (destruct dt; reflexivity).
  rewrite !readdzt_header by (try rewrite length_app; lia).
  rewrite header_of_app by assumption.
  unfold read_samples.
  rewrite select_datatype_header, head_offset_header, Hso, count_header, Hdt.
  cbn [bind].
  rewrite (fromfile_app host file extra dt _ _ ((S - start_scan) * trace_len host file));
    [reflexivity | | | | assumption].
  - unfold trace_len in *. nia.
  - nia.
  - rewrite Hfile. unfold trace_len. ring.
Qed.

Lemma trailing_bytes_ignored_witness :
  readdzt little_endian_host (file_4x2x3 ++ [Byte.xff]) 1 (-1)
  = readdzt little_endian_host file_4x2x3 1 (-1).
Proof.
  apply (trailing_bytes_ignored little_endian_host file_4x2x3 [Byte.xff] 3 1 (-1)).
  - unfold well_formed.
    split; [apply Nat.leb_le; vm_compute; reflexivity |].
    split; [vm_compute; reflexivity |].
    split; [vm_compute; discriminate |].
    split; [right; left; vm_compute; reflexivity |].
    split; [vm_compute; discriminate |].
    split; [lia |].
    vm_compute. reflexivity.
  - vm_compute. reflexivity.
  - vm_compute. reflexivity.
  - lia.
Defined.

(** ** Encoded samples decode to themselves *)

Lemma length_encode_sample (host : machine) (bits : Z) (dt : np.dtype) (v : Z) :
  dtype_of_bits bits = Some dt ->
  length (encode_sample host bits v) = Z.to_nat (np.itemsize dt).
Proof.
  intros Hdt. apply dtype_of_bits_inv in Hdt.
  destruct Hdt as [[-> ->] | [[-> ->] | [-> ->]]];
    unfold encode_sample; cbn [Z.eqb Pos.eqb]; rewrite ?length_native; reflexivity.
Qed.

Lemma decode_encode_sample (host : machine) (bits : Z) (dt : np.dtype) (v : Z) :
  dtype_of_bits bits = Some dt ->
  in_sample_range bits v ->
  recentre_value bits (np.item host dt (encode_sample host bits v)) = v.
Proof.
  intros Hdt Hv. unfold in_sample_range in Hv. apply dtype_of_bits_inv in Hdt.
  destruct Hdt as [[-> ->] | [[-> ->] | [-> ->]]];
    unfold encode_sample; cbn [Z.eqb Pos.eqb np.item]; rewrite ?native_involutive.
  - change (2 ^ (8 - 1)) with 128 in Hv. change (2 ^ 7) with 128.
    rewrite le_combine_split. change (Z.of_nat 1 * 8) with 8.
    rewrite Z.mod_small by lia.
    rewrite recentre_value_unsigned by (auto || lia).
    change (2 ^ (8 - 1)) with 128. lia.
  - change (2 ^ (16 - 1)) with 32768 in Hv. change (2 ^ 15) with 32768.
    rewrite le_combine_split. change (Z.of_nat 2 * 8) with 16.
    rewrite Z.mod_small by lia.
    rewrite recentre_value_unsigned by (auto || lia).
    change (2 ^ (16 - 1)) with 32768. lia.
  - change (2 ^ (32 - 1)) with (2 ^ 31) in Hv.
    rewrite le_combine_split. change (Z.of_nat 4 * 8) with 32.
    unfold recentre_value. cbn [Z.eqb Pos.eqb orb].
    apply wrap_int32_small. assumption.
Qed.

Lemma group_flat_map {A B} (f : A -> list B) (n : nat) (l : list A) (tail : list B) :
  Forall (fun x => length (f x) = n) l ->
  group n (flat_map f l ++ tail) (length l) = map f l.
Proof.
  induction 1 as [| x l Hx Hl IH]; [reflexivity |].
  cbn [flat_map length group map]. rewrite <- app_assoc.
  rewrite firstn_app, skipn_app, Hx, Nat.sub_diag.
  rewrite firstn_all2, skipn_all2 by lia.
  cbn [firstn skipn app]. rewrite app_nil_r, IH. reflexivity.
Qed.

Lemma length_flat_map_const {A B} (f : A -> list B) (n : nat) (l : list A) :
  Forall (fun x => length (f x) = n) l ->
  length (flat_map f l) = (length l * n)%nat.
Proof.
  induction 1 as [| x l Hx Hl IH]; [reflexivity |].
  cbn [flat_map length]. rewrite length_app, Hx, IH. lia.
Qed.

(** Encode, then decode, on every host: a file made of a header of
    [head_offset] bytes and of the samples [vs] encoded in the byte order of
    the host ([S] scans, each value in the signed range of the sample width)
    decodes, with the default arguments, to the matrix whose column [j] is
    the [j]-th block of [rh_nsamp * rh_nchan] values of [vs], with the header
    mapping of the header. *)
Theorem samples_round_trip (host : machine) (hdr : list byte) (vs : list Z) (S : Z) :
  (54 <= length hdr)%nat ->
  len hdr = header_size host hdr ->
  0 < rh_nsamp host hdr ->
  1 <= rh_nchan host hdr ->
  rh_bits host hdr = 8 \/ rh_bits host hdr = 16 \/ rh_bits host hdr = 32 ->
  len vs = S * trace_len host hdr ->
  Forall (in_sample_range (rh_bits host hdr)) vs ->
  len hdr + len vs * (rh_bits host hdr / 8) < 2 ^ 50 ->
  exists data : np.ndarray,
    readdzt host (hdr ++ encode_samples host (rh_bits host hdr) vs) 0 (-1)
    = Ok (data, header_of host hdr)
    /\ np.shape data = (trace_len host hdr, S)
    /\ (forall j, (j < Z.to_nat S)%nat ->
          np.column data j
          = firstn (Z.to_nat (trace_len host hdr))
                   (skipn (j * Z.to_nat (trace_len host hdr)) vs)).
Proof.
  intros Hlen Hhdr Hns Hnc Hbits Hvs Hrange Hsize.
  set (bits := rh_bits host hdr) in *.
  set (k := trace_len host hdr) in *.
  set (payload := encode_samples host bits vs).
  set (file := hdr ++ payload).
  destruct (dtype_of_supported_bits _ Hbits) as (dt & Hdt & Hb8 & Hes).
  assert (Hespos : 0 < np.itemsize dt) by (destruct dt; reflexivity).
  assert (Hk : 0 < k) by (unfold k, trace_len; nia).
  assert (HS : 0 <= S) by (unfold len in Hvs; nia).
  assert (Hfb : rh_bits host file = bits)
    by (unfold rh_bits, file; rewrite int16_at_app by lia; reflexivity).
  assert (Hfs : rh_nsamp host file = rh_nsamp host hdr)
    by (unfold rh_nsamp, file; rewrite int16_at_app by lia; reflexivity).
  assert (Hfc : rh_nchan host file = rh_nchan host hdr)
    by (unfold rh_nchan, file; rewrite int16_at_app by lia; reflexivity).
  assert (Hfd : rh_data host file = rh_data host hdr)
    by (unfold rh_data, file; rewrite int16_at_app by lia; reflexivity).
  assert (Hfk : trace_len host file = k)
    by (unfold trace_len; rewrite Hfs, Hfc; reflexivity).
  assert (Hfh : header_size host file = len hdr)
    by (unfold header_size; rewrite Hfd, Hfc; symmetry; exact Hhdr).
  assert (Hall : Forall (fun v => length (encode_sample host bits v)
                                  = Z.to_nat (np.itemsize dt)) vs)
    by (apply Forall_forall; intros v _; apply length_encode_sample; assumption).
  assert (Hpl : len payload = len vs * np.itemsize dt).
  { unfold len, payload, encode_samples.
    rewrite (length_flat_map_const _ _ _ Hall). lia. }
  assert (Hfl : len file = len hdr + len vs * np.itemsize dt)
    by (unfold file, len in *; rewrite length_app; lia).
  assert (Hwf : well_formed host file S).
  { unfold well_formed. rewrite Hfs, Hfc, Hfb, Hfk, Hfh, Hes, Hfl, Hvs.
    unfold len in *. unfold file. rewrite length_app.
    repeat split; try lia. }
  assert (Hsz : len file < 2 ^ 50) by (rewrite Hfl, <- Hes; exact Hsize).
  assert (Hsamples : payload_samples host file S = vs).
  { unfold payload_samples. rewrite Hfb, Hdt, Hfk, Hfh.
    replace (skipn (Z.to_nat (len hdr)) file) with payload
      by (unfold file, len; rewrite Nat2Z.id, skipn_app, skipn_all, Nat.sub_diag;
          reflexivity).
    replace (Z.to_nat (S * k)) with (length vs) by (unfold len in Hvs; lia).
    rewrite <- (app_nil_r payload). unfold payload, encode_samples.
    rewrite (group_flat_map _ _ _ _ Hall), map_map.
    rewrite <- (map_id vs) at 2. apply map_ext_in.
    intros v Hv. apply decode_encode_sample; [assumption |].
    rewrite Forall_forall in Hrange. apply Hrange. assumption. }
  pose proof (readdzt_window host file S Hwf Hsz 0 (-1)) as Hw.
  rewrite Hfk in Hw.
  assert (Hsr : scans_read S 0 (-1) = S) by (unfold scans_read; cbn; lia).
  rewrite Hsr in Hw.
  destruct (window_matrix host file S Hwf 0 S) as (Hshape & _ & _ & Hcol & _);
    [lia | lia |].
  rewrite Hfk in Hshape, Hcol.
  eexists. split; [| split].
  - rewrite Hw by lia.
    replace (header_of host file) with (header_of host hdr)
      by (symmetry; apply header_of_app; assumption).
    reflexivity.
  - exact Hshape.
  - intros j Hj. rewrite Hcol by assumption.
    unfold scans. rewrite Hsamples, Hfk. cbn [Z.to_nat Nat.add].
    apply nth_group. assumption.
Qed.

Lemma samples_round_trip_witness :
  (exists data : np.ndarray,
     readdzt big_endian_host
       (sample_header_native big_endian_host 1024 2 16 1 1024
        ++ encode_samples big_endian_host 16 [-32768; -1; 0; 32767]) 0 (-1)
     = Ok (data, header_of big_endian_host
                   (sample_header_native big_endian_host 1024 2 16 1 1024))
     /\ np.column data 0 = [-32768; -1]
     /\ np.column data 1 = [0; 32767])
  /\ (exists data : np.ndarray,
        readdzt little_endian_host
          (sample_header 1024 2 16 1 1024
           ++ encode_samples little_endian_host 16 [-32768; -1; 0; 32767]) 0 (-1)
        = Ok (data, header_of little_endian_host (sample_header 1024 2 16 1 1024))
        /\ np.column data 0 = [-32768; -1]
        /\ np.column data 1 = [0; 32767]).
Proof.
  split.
  - destruct (samples_round_trip big_endian_host
                (sample_header_native big_endian_host 1024 2 16 1 1024)
                [-32768; -1; 0; 32767] 2)
      as (data & Hdata & _ & Hcol).
    + apply Nat.leb_le. vm_compute. reflexivity.
    + vm_compute. reflexivity.
    + vm_compute. reflexivity.
    + vm_compute. discriminate.
    + right. left. vm_compute. reflexivity.
    + vm_compute. reflexivity.
    + repeat constructor; vm_compute; discriminate.
    + vm_compute. reflexivity.
    + exists data. split; [exact Hdata |].
      split; [apply (Hcol 0%nat); vm_compute; lia | apply (Hcol 1%nat); vm_compute; lia].
  - destruct (samples_round_trip little_endian_host (sample_header 1024 2 16 1 1024)
                [-32768; -1; 0; 32767] 2)
      as (data & Hdata & _ & Hcol).
    + apply Nat.leb_le. vm_compute. reflexivity.
    + vm_compute. reflexivity.
    + vm_compute. reflexivity.
    + vm_compute. discriminate.
    + right. left. vm_compute. reflexivity.
    + vm_compute. reflexivity.
    + repeat constructor; vm_compute; discriminate.
    + vm_compute. reflexivity.
    + exists data. split; [exact Hdata |].
      split; [apply (Hcol 0%nat); vm_compute; lia | apply (Hcol 1%nat); vm_compute; lia].
Defined.

(** ** A start offset too large for a float *)

Lemma iter_pos_nat {A} (f : A -> A) (p : positive) (x : A) :
  iter_pos f p x = Nat.iter (Pos.to_nat p) f x.
Proof.
  revert x; induction p as [p IH | p IH |]; intros x; cbn [iter_pos].
  - rewrite !IH.
    replace (Pos.to_nat p~1) with (S (Pos.to_nat p + Pos.to_nat p)) by lia.
    rewrite Nat.iter_succ_r, Nat.iter_add. reflexivity.
  - rewrite !IH.
    replace (Pos.to_nat p~0) with (Pos.to_nat p + Pos.to_nat p)%nat by lia.
    rewrite Nat.iter_add. reflexivity.
  - reflexivity.
Qed.

Lemma shr_1_m (mrs : shr_record) :
  0 <= shr_m mrs -> shr_m (shr_1 mrs) = shr_m mrs / 2.
Proof.
  destruct mrs as [m r s]. cbn [shr_m shr_1]. intros Hm.
  destruct m as [| [p | p |] | p]; cbn [shr_m]; try reflexivity;
    Z.div_mod_to_equations; lia.
Qed.

Lemma iter_shr_1_m (n : nat) (mrs : shr_record) :
  0 <= shr_m mrs ->
  shr_m (Nat.iter n shr_1 mrs) = shr_m mrs / 2 ^ Z.of_nat n.
Proof.
  intros Hm. induction n as [| n IH].
  - cbn. rewrite Z.div_1_r. reflexivity.
  - rewrite Nat.iter_succ, shr_1_m, IH.
    + rewrite Nat2Z.inj_succ, Z.pow_succ_r, Z.div_div by lia. f_equal. lia.
    + rewrite IH. apply Z.div_pos; lia.
Qed.

(** Shifting a mantissa right by [n > 0] bits. *)
Lemma shr_m_spec (m e n : Z) :
  0 <= m -> 0 <= n ->
  let '(mrs, e') := shr (shr_record_of_loc m loc_Exact) e n in
  shr_m mrs = m / 2 ^ n /\ e' = e + n.
Proof.
  intros Hm Hn. unfold shr. destruct n as [| p | p]; [| | lia].
  - cbn [shr_record_of_loc shr_m]. rewrite Z.div_1_r. split; lia.
  - rewrite iter_pos_nat, iter_shr_1_m by (cbn; assumption).
    rewrite positive_nat_Z. cbn [shr_record_of_loc shr_m]. split; reflexivity.
Qed.

Lemma digits2_pos_lower (m : positive) (n : Z) :
  2 ^ n <= Zpos m -> n < Zpos (digits2_pos m).
Proof.
  intros H. pose proof (digits2_pos_bounds m) as [_ Hhi].
  destruct (Z.lt_ge_cases n (Zpos (digits2_pos m))) as [| Hge]; [assumption | exfalso].
  assert (2 ^ Zpos (digits2_pos m) <= 2 ^ n) by (apply Z.pow_le_mono_r; lia). lia.
Qed.

(** A quotient [m * 2^-3] of at least [2^1024] rounds to an infinity. *)
Lemma binary_round_overflow (s : bool) (m : positive) :
  2 ^ 1027 <= Zpos m ->
  binary_round 53 1024 s m (-3) = S754_infinity s.
Proof.
  intros Hm.
  pose proof (digits2_pos_bounds m) as [Hlo Hhi].
  pose proof (digits2_pos_lower m 1027 Hm) as Hd.
  set (d := Zpos (digits2_pos m)) in *.
  unfold binary_round, shl_align, fexp, emin. fold d.
  replace (Z.max (d + -3 - 53) (3 - 1024 - 53)) with (d - 56) by lia.
  destruct (d - 56 - -3) as [| p | p] eqn:Hsh; [lia | | lia].
  unfold binary_round_aux, shr_fexp, fexp, emin. cbn [Zdigits2]. fold d.
  replace (Z.max (d + -3 - 53) (3 - 1024 - 53) - -3) with (d - 53) by lia.
  pose proof (shr_m_spec (Zpos m) (-3) (d - 53)) as H1.
  destruct (shr (shr_record_of_loc (Zpos m) loc_Exact) (-3) (d - 53)) as [mrs' e'].
  destruct H1 as [Hm' He']; [lia | lia |].
  assert (Hm'lo : 2 ^ 52 <= shr_m mrs').
  { rewrite Hm'. apply Z.div_le_lower_bound; [apply Z.pow_pos_nonneg; lia |].
    rewrite <- Z.pow_add_r by lia. replace (d - 53 + 52) with (d - 1) by lia.
    assumption. }
  set (m1 := round_nearest_even (shr_m mrs') (loc_of_shr_record mrs')).
  assert (Hm1 : 2 ^ 52 <= m1).
  { subst m1. unfold round_nearest_even.
    destruct (loc_of_shr_record mrs') as [| []]; try lia.
    destruct (Z.even (shr_m mrs')); lia. }
  destruct m1 as [| q | q] eqn:Hq; [lia | | lia].
  cbn [Zdigits2].
  pose proof (digits2_pos_lower q 52 Hm1) as Hdq.
  pose proof (digits2_pos_bounds q) as [Hqlo _].
  set (dq := Zpos (digits2_pos q)) in *.
  replace (Z.max (dq + e' - 53) (3 - 1024 - 53) - e') with (dq - 53) by lia.
  pose proof (shr_m_spec (Zpos q) e' (dq - 53)) as H2.
  destruct (shr (shr_record_of_loc (Zpos q) loc_Exact) e' (dq - 53)) as [mrs'' e''].
  destruct H2 as [Hm'' He'']; [lia | lia |].
  assert (Hm''lo : 2 ^ 52 <= shr_m mrs'').
  { rewrite Hm''. apply Z.div_le_lower_bound; [apply Z.pow_pos_nonneg; lia |].
    rewrite <- Z.pow_add_r by lia. replace (dq - 53 + 52) with (dq - 1) by lia.
    assumption. }
  destruct (shr_m mrs'') as [| r | r]; [lia | | lia].
  destruct (Z.leb_spec e'' (1024 - 53)); [lia | reflexivity].
Qed.

Lemma truediv_pow2_overflow (a : Z) :
  2 ^ 1027 <= Z.abs a -> truediv_pow2 a 3 = Raise OverflowError.
Proof.
  intros Ha. unfold truediv_pow2, binary_normalize.
  destruct a as [| m | m]; [cbn in Ha; lia | |];
    change (- (3)) with (-3); rewrite binary_round_overflow by (cbn in Ha; lia);
    reflexivity.
Qed.

(** A start offset that does not fit a float is not replaced by 0: when
    [start_scan * rh_nchan * rh_nsamp * rh_bits] is [2^1027] or more in
    magnitude the division overflows, the handler calls [warnings.warn]
    without the module being imported, and the call raises NameError. *)
Theorem offset_overflow_raises (host : machine) (file : list byte)
        (start_scan n_scans : Z) :
  (54 <= length file)%nat ->
  2 ^ 1027
  <= Z.abs (start_scan * rh_nchan host file * rh_nsamp host file * rh_bits host file) ->
  readdzt host file start_scan n_scans = Raise (NameError "warnings").
Proof.
  intros Hlen HP.
  rewrite readdzt_header by assumption. unfold read_samples.
  rewrite select_datatype_header, head_offset_header, start_offset_header.
  rewrite truediv_pow2_overflow by assumption. reflexivity.
Qed.

Lemma offset_overflow_raises_witness :
  readdzt little_endian_host file_100_scans (2 ^ 1027) 3 = Raise (NameError "warnings").
Proof.
  apply offset_overflow_raises.
  - apply Nat.leb_le. vm_compute. reflexivity.
  - vm_compute. discriminate.
Defined.

(** ** Files with more than whole scans *)

(** [np.fromfile] with a count that the file satisfies does not depend on
    what follows the items it reads. *)
Lemma fromfile_prefix (host : machine) (file extra : list byte) (dt : np.dtype)
      (offset count : Z) :
  0 <= offset -> 0 <= count ->
  count * np.itemsize dt <= len file - offset ->
  np.fromfile host (file ++ extra) dt offset count
  = np.fromfile host file dt offset count.
Proof.
  intros Hoff Hcnt Hfit. unfold np.fromfile.
  assert (Hes : 0 < np.itemsize dt) by (destruct dt; reflexivity).
  set (es := np.itemsize dt) in *.
  destruct (negb _); [reflexivity |].
  destruct (Z.ltb_spec offset 0); [lia |].
  destruct (Z.ltb_spec (len file) offset); [nia |].
  destruct (Z.ltb_spec (len (file ++ extra)) offset);
    [unfold len in *; rewrite length_app in *; nia |].
  cbn [andb].
  destruct (Z.ltb_spec count 0); [lia |].
  destruct (Z.ltb_spec count 0); [lia |].
  destruct (2 ^ 63 <=? count * es); [reflexivity |].
  assert (Hrest : skipn (Z.to_nat offset) (file ++ extra)
                  = skipn (Z.to_nat offset) file ++ extra).
  { rewrite skipn_app.
    replace (Z.to_nat offset - length file)%nat with 0%nat by (unfold len in *; nia).
    reflexivity. }
  rewrite Hrest.
  assert (Hlr : len (skipn (Z.to_nat offset) file) = len file - offset)
    by (unfold len in *; rewrite length_skipn; nia).
  assert (Hc1 : count <= len (skipn (Z.to_nat offset) file) / es)
    by (apply Z.div_le_lower_bound; lia).
  assert (Hc2 : count <= len (skipn (Z.to_nat offset) file ++ extra) / es).
  { apply Z.div_le_lower_bound; [lia |].
    unfold len in *. rewrite length_app. lia. }
  destruct (Z.ltb_spec (len (skipn (Z.to_nat offset) file) / es) count); [lia |].
  destruct (Z.ltb_spec (len (skipn (Z.to_nat offset) file ++ extra) / es) count); [lia |].
  cbn [andb].
  rewrite !Z.min_l by assumption.
  rewrite group_app_l; [reflexivity |].
  rewrite <- Z2Nat.inj_mul by lia. unfold len in *. lia.
Qed.

(** A window of complete scans does not depend on what follows it: on a
    well-formed file of [S] scans followed by any bytes at all, a window
    [0 <= start_scan], [0 < n_scans], [start_scan + n_scans <= S] returns
    what it returns on the well-formed file alone. *)
Theorem window_ignores_what_follows (host : machine) (file extra : list byte)
        (S start_scan n_scans : Z) :
  well_formed host file S ->
  len file < 2 ^ 50 ->
  0 <= start_scan -> 0 < n_scans -> start_scan + n_scans <= S ->
  readdzt host (file ++ extra) start_scan n_scans
  = readdzt host file start_scan n_scans.
Proof.
  intros Hwf Hsize Hs Hn Hend.
  pose proof (trace_len_pos host file S Hwf) as Hk.
  pose proof (start_offset_wf host file S Hwf Hsize start_scan ltac:(lia)) as Hso.
  destruct Hwf as (Hlen & Hns & Hnc & Hbits & Hhs & HS & Hfile).
  destruct (dtype_of_supported_bits _ Hbits) as (dt & Hdt & Hb8 & Hes).
  rewrite Hes in *.
  assert (Hespos : 0 < np.itemsize dt) by (destruct dt; reflexivity).
  rewrite !readdzt_header by (try rewrite length_app; lia).
  rewrite header_of_app by assumption.
  unfold read_samples.
  rewrite select_datatype_header, head_offset_header, Hso, count_header, Hdt.
  cbn [bind].
  destruct (Z.gtb_spec n_scans 0); [| lia].
  rewrite fromfile_prefix; [reflexivity | | | ].
  - unfold trace_len in *. nia.
  - unfold trace_len in *. nia.
  - rewrite Hfile. unfold trace_len in *.
    set (a := rh_nsamp host file) in *. set (b := rh_nchan host file) in *.
    set (es := np.itemsize dt) in *.
    replace (header_size host file + S * (a * b * es)
             - (header_size host file + start_scan * b * a * es))
      with ((S - start_scan) * (a * b) * es) by ring.
    replace (n_scans * a * b * es) with (n_scans * (a * b) * es) by ring.
    apply Z.mul_le_mono_nonneg_r; [lia |].
    apply Z.mul_le_mono_nonneg_r; lia.
Qed.

Lemma window_ignores_what_follows_witness :
  readdzt little_endian_host (file_100_scans ++ ramp 7) 97 3
  = readdzt little_endian_host file_100_scans 97 3.
Proof.
  apply (window_ignores_what_follows little_endian_host file_100_scans (ramp 7) 100 97 3
           well_formed_file_100_scans small_file_100_scans); lia.
Defined.

(** A file that ends inside a scan: when a well-formed file of [S] scans is
    followed by [t] whole samples, [0 < t] less than one scan, reading to
    the end of the file from any [start_scan] in [0, S] raises ValueError,
    for the samples read do not fill whole columns. *)
Theorem partial_last_scan_raises (host : machine) (file extra : list byte)
        (S t start_scan n_scans : Z) :
  well_formed host file S ->
  len file + len extra < 2 ^ 50 ->
  len extra = t * (rh_bits host file / 8) ->
  0 < t < trace_len host file ->
  0 <= start_scan <= S ->
  n_scans <= 0 ->
  readdzt host (file ++ extra) start_scan n_scans = Raise ValueError.
Proof.
  intros Hwf Hsize Hextra Ht Hstart Hn.
  assert (Hsz : len file < 2 ^ 50) by (unfold len in *; lia).
  pose proof (start_offset_wf host file S Hwf Hsz start_scan Hstart) as Hso.
  destruct Hwf as (Hlen & Hns & Hnc & Hbits & Hhs & HS & Hfile).
  destruct (dtype_of_supported_bits _ Hbits) as (dt & Hdt & Hb8 & Hes).
  rewrite Hes in *.
  assert (Hespos : 0 < np.itemsize dt) by (destruct dt; reflexivity).
  set (k := trace_len host file) in *.
  set (es := np.itemsize dt) in *.
  rewrite readdzt_header by (rewrite length_app; lia).
  rewrite header_of_app by assumption. unfold read_samples.
  rewrite select_datatype_header, head_offset_header, Hso, count_header, Hdt.
  cbn [bind].
  destruct (Z.gtb_spec n_scans 0); [lia |].
  replace (start_scan * rh_nchan host file * rh_nsamp host file * es)
    with (start_scan * k * es) by (unfold k, trace_len; ring).
  assert (Hske : 0 <= start_scan * k * es <= S * k * es) by nia.
  rewrite (fromfile_items host (file ++ extra) dt _ (-1) ((S - start_scan) * k + t));
    [| lia | lia | nia | unfold len in *; rewrite length_app; fold es; lia
     | fold es; unfold len in *; nia | left; nia].
  cbn [bind Z.ltb Z.compare]. rewrite recentre_header. cbn [bind].
  rewrite build_matrix_fail; [reflexivity |].
  fold k. unfold len. rewrite !length_map, length_group.
  rewrite Z2Nat.id by nia.
  intros [c Hc].
  assert (Hq : t = (c - (S - start_scan)) * k) by (rewrite Z.mul_sub_distr_r; lia).
  destruct (Z.le_gt_cases (c - (S - start_scan)) 0); nia.
Qed.

Lemma partial_last_scan_raises_witness :
  readdzt little_endian_host (file_4x2x3 ++ ramp 6) 1 (-1) = Raise ValueError.
Proof.
  apply (partial_last_scan_raises little_endian_host file_4x2x3 (ramp 6) 3 3 1 (-1)).
  - unfold well_formed.
    split; [apply Nat.leb_le; vm_compute; reflexivity |].
    split; [vm_compute; reflexivity |].
    split; [vm_compute; discriminate |].
    split; [right; left; vm_compute; reflexivity |].
    split; [vm_compute; discriminate |].
    split; [lia |].
    vm_compute. reflexivity.
  - vm_compute. reflexivity.
  - vm_compute. reflexivity.
  - split; vm_compute; reflexivity.
  - lia.
  - lia.
Defined.
